(** * mopidy.http.handlers: the HTTP / WebSocket JSON-RPC gateway

    A shallow embedding of [src/mopidy/http/handlers.py].  Python statements
    become computations in a small state-and-exception monad over the process
    state; dictionaries are [gmap]s, the class-level [set()] of WebSocket
    clients is a [gset] of object identities. *)

From stdpp Require Import base option list gmap strings functions.
From stdpp Require Import sorting pretty.

Open Scope string_scope.
Open Scope list_scope.

(** ** Python control flow: state plus exceptions *)

Module py.

(** [except Exception] catches what derives from [Exception];
    [KeyboardInterrupt], [SystemExit] and [GeneratorExit] derive from
    [BaseException] only and pass through it. *)
Inductive exc_class := Exception | BaseException.

Record exc := Exc { exc_type : exc_class; exc_str : string }.

Inductive result (A : Type) :=
| Return (a : A)
| Raise (e : exc).
Arguments Return {A} a.
Arguments Raise {A} e.

Definition M (S A : Type) : Type := S → result A * S.

Definition ret {S A} (a : A) : M S A := λ s, (Return a, s).

Definition bind {S A B} (c : M S A) (k : A → M S B) : M S B :=
  λ s, match c s with
       | (Return a, s') => k a s'
       | (Raise e, s') => (Raise e, s')
       end.

Definition raise {S A} (e : exc) : M S A := λ s, (Raise e, s).

Definition get {S} : M S S := λ s, (Return s, s).
Definition modify {S} (f : S → S) : M S unit := λ s, (Return tt, f s).

(** [try: body / except Exception as e: handler e] *)
Definition try_except {S A} (body : M S A) (handler : exc → M S A) : M S A :=
  λ s, match body s with
       | (Return a, s') => (Return a, s')
       | (Raise e, s') =>
           match exc_type e with
           | Exception => handler e s'
           | BaseException => (Raise e, s')
           end
       end.

(** [for x in xs: body x] *)
Fixpoint for_in {S X} (xs : list X) (body : X → M S unit) : M S unit :=
  match xs with
  | [] => ret tt
  | x :: xs' => bind (body x) (λ _, for_in xs' body)
  end.

(** [if b: c] *)
Definition when {S} (b : bool) (c : M S unit) : M S unit :=
  if b then c else ret tt.

(** Truthiness of a [str]: the empty string is falsy. *)
Definition truthy (s : string) : bool :=
  match s with EmptyString => false | String _ _ => true end.

(** No run of [c] changes the observation [f] of the state. *)
Definition keeps {S A X} (f : S → X) (c : M S A) : Prop :=
  ∀ s, f (snd (c s)) = f s.

End py.

#[export] Instance py_ret {S} : MRet (py.M S) := λ A, py.ret.
#[export] Instance py_bind {S} : MBind (py.M S) := λ A B k c, py.bind c k.

(** ** mopidy.utils.jsonrpc and mopidy.core, as far as the handlers use them *)

Module jsonrpc.

(** A reference to a core actor (a pykka proxy). *)
Definition actor := nat.

(** What [core_actor.<name>] can be asked for by the handlers. *)
Inductive core_attr :=
| get_uri_schemes | get_version | library | playback | playlists | tracklist.

(** The class-level objects of [mopidy.core] handed to the inspector. *)
Inductive core_class :=
| Core_get_uri_schemes | Core_get_version
| LibraryController | PlaybackController
| PlaylistsController | TracklistController.

(** [JsonRpcInspector(objects=...)] keeps the table it is given. *)
Record JsonRpcInspector := { inspector_objects : gmap string core_class }.

(** The callables a wrapper can dispatch to. *)
Inductive target :=
| inspector_describe (i : JsonRpcInspector)
| actor_attr (core_actor : actor) (a : core_attr).

Inductive decoder := model_json_decoder.
Inductive encoder := ModelJSONEncoder.

(** [JsonRpcWrapper(objects=..., decoders=..., encoders=...)] *)
Record JsonRpcWrapper := {
  objects : gmap string target;
  decoders : list decoder;
  encoders : list encoder;
}.

(** The class-level counterpart of an actor attribute. *)
Definition class_of (a : core_attr) : core_class :=
  match a with
  | get_uri_schemes => Core_get_uri_schemes
  | get_version => Core_get_version
  | library => LibraryController
  | playback => PlaybackController
  | playlists => PlaylistsController
  | tracklist => TracklistController
  end.

(** The entry of the introspection table that describes a dispatch
    target; [core.describe] itself is not described. *)
Definition described (t : target) : option core_class :=
  match t with
  | inspector_describe _ => None
  | actor_attr _ a => Some (class_of a)
  end.

End jsonrpc.
Import jsonrpc.

Definition make_jsonrpc_wrapper (core_actor : actor) : JsonRpcWrapper :=
  let inspector :=
    {| inspector_objects :=
         <["core.get_uri_schemes" := Core_get_uri_schemes]>
         (<["core.get_version" := Core_get_version]>
         (<["core.library" := LibraryController]>
         (<["core.playback" := PlaybackController]>
         (<["core.playlists" := PlaylistsController]>
         (<["core.tracklist" := TracklistController]> ∅))))) |} in
  {| objects :=
       <["core.describe" := inspector_describe inspector]>
       (<["core.get_uri_schemes" := actor_attr core_actor get_uri_schemes]>
       (<["core.get_version" := actor_attr core_actor get_version]>
       (<["core.library" := actor_attr core_actor library]>
       (<["core.playback" := actor_attr core_actor playback]>
       (<["core.playlists" := actor_attr core_actor playlists]>
       (<["core.tracklist" := actor_attr core_actor tracklist]> ∅))))));
     decoders := [model_json_decoder];
     encoders := [ModelJSONEncoder] |}.

(** ** Tornado and logging, as seen from the handlers

    Calls into Tornado are kept at the level of its API: each call is
    recorded on the object it is made on, with what it does to the response
    or to the channel.  Objects live in a store indexed by object
    identity. *)

Definition oid := nat.

(** An instance of [WebSocketHandler], with what it inherits from
    [tornado.websocket.WebSocketHandler]. *)
Record WebSocketHandler := {
  ws_jsonrpc : JsonRpcWrapper;         (* self.jsonrpc *)
  ws_remote_ip : string;               (* self.request.remote_ip *)
  ws_connection : bool;                (* self.ws_connection is not None *)
  ws_write_fault : option py.exc;      (* what write_message would raise now *)
  ws_tcp_nodelay : bool;               (* TCP_NODELAY on the socket *)
  ws_written : list string;            (* messages written, oldest first *)
  ws_close_calls : nat;                (* calls of self.close() *)
}.

(** An instance of [JsonRpcHandler], with what it inherits from
    [tornado.web.RequestHandler], its request included. *)
Record JsonRpcHandler := {
  rh_jsonrpc : JsonRpcWrapper;         (* self.jsonrpc *)
  rh_remote_ip : string;               (* self.request.remote_ip *)
  rh_body : string;                    (* self.request.body *)
  rh_status : Z;                       (* self._status_code, set by set_status *)
  rh_reason : string;                  (* self._reason, set with the status *)
  rh_headers : gmap string string;     (* response headers *)
  rh_written : list string;            (* chunks written to the body *)
  rh_errors : list Z;                  (* status codes given to write_error *)
  rh_finished : bool;                  (* the response has been finished *)
}.

(** What [write_message] raises on a connection that has been closed. *)
Definition WebSocketClosedError : py.exc :=
  py.Exc py.Exception "WebSocketClosedError".

(** The page of Tornado's [write_error]:
    [<html><title>%(code)d: %(message)s</title>
     <body>%(code)d: %(message)s</body></html>] *)
Definition error_page (code : Z) (message : string) : string :=
  String.append "<html><title>"
    (String.append (pretty code)
    (String.append ": "
    (String.append message
    (String.append "</title><body>"
    (String.append (pretty code)
    (String.append ": "
    (String.append message "</body></html>"))))))).

Module socket.
Definition IPPROTO_TCP : Z := 6.
Definition TCP_NODELAY : Z := 1.
End socket.
Import socket.

(** [tornado.escape.native_str]; in Python 2 a byte string is returned as
    it is. *)
Definition native_str (s : string) : string := s.

Module logging.
Inductive level := DEBUG | ERROR.
Inductive arg := arg_str (s : string) | arg_exc (e : py.exc).
(** A record keeps the format string and its arguments apart, as
    [logging] does. *)
Record record := { lvl : level; fmt : string; args : list arg }.
End logging.
Import logging.

(** ** What the handlers are run against *)

Class environment := {
  (** State of the core behind the dispatcher, and the dispatcher
      [JsonRpcWrapper.handle_json] itself: it returns a response, [None]
      for a notification, or raises. *)
  CoreState : Type;
  handle_json : JsonRpcWrapper → string → py.M CoreState (option string);
  (** [mopidy.__version__.encode('utf-8')] *)
  mopidy_version : string;
  (** [hasattr(self, 'set_nodelay')]: true from Tornado 3.1 on. *)
  has_set_nodelay : bool;
  (** Truthiness of what [write_message] returns: [None] in older
      Tornado versions, a future in newer ones. *)
  write_message_result : bool;
  (** [self.render_string(template_name, apps=apps)]: the page a template
      gives for a list of names. *)
  render_string : string → list string → string;
}.

(** ** The handlers *)

Section handlers.

Context {E : environment}.

Record world := {
  clients : gset oid;                  (* WebSocketHandler.clients *)
  websockets : oid → WebSocketHandler;
  requests : oid → JsonRpcHandler;
  core_state : CoreState;
  dispatched : list string;            (* payloads given to handle_json *)
  log : list logging.record;
}.

Definition set_clients (f : gset oid → gset oid) (w : world) : world :=
  {| clients := f (clients w); websockets := websockets w;
     requests := requests w; core_state := core_state w;
     dispatched := dispatched w; log := log w |}.

Definition set_websocket (self : oid) (f : WebSocketHandler → WebSocketHandler) (w : world) : world :=
  {| clients := clients w;
     websockets := alter f self (websockets w);
     requests := requests w; core_state := core_state w;
     dispatched := dispatched w; log := log w |}.

Definition set_request (self : oid) (f : JsonRpcHandler → JsonRpcHandler) (w : world) : world :=
  {| clients := clients w; websockets := websockets w;
     requests := alter f self (requests w);
     core_state := core_state w;
     dispatched := dispatched w; log := log w |}.

Definition set_log (f : list logging.record → list logging.record) (w : world) : world :=
  {| clients := clients w; websockets := websockets w;
     requests := requests w; core_state := core_state w;
     dispatched := dispatched w; log := f (log w) |}.

(** The dispatcher was given [request] and left the core in [cs]. *)
Definition set_dispatch (cs : CoreState) (request : string) (w : world) : world :=
  {| clients := clients w; websockets := websockets w;
     requests := requests w; core_state := cs;
     dispatched := dispatched w ++ [request]; log := log w |}.

(** An observation of the process that logging, the dispatcher and
    Tornado's bookkeeping on a handler do not change, as long as the
    handler's [jsonrpc] attribute stays. *)
Definition stable {X} (f : world → X) : Prop :=
  (∀ g w, f (set_log g w) = f w) ∧
  (∀ cs request w, f (set_dispatch cs request w) = f w) ∧
  (∀ self g w, (∀ o, ws_jsonrpc (g o) = ws_jsonrpc o) →
               f (set_websocket self g w) = f w) ∧
  (∀ self g w, (∀ o, rh_jsonrpc (g o) = rh_jsonrpc o) →
               f (set_request self g w) = f w).

(** Reading an attribute of [self]. *)
Definition ws_attr {A} (f : WebSocketHandler → A) (self : oid) : py.M world A :=
  w ← py.get; mret (f (websockets w self)).

Definition rh_attr {A} (f : JsonRpcHandler → A) (self : oid) : py.M world A :=
  w ← py.get; mret (f (requests w self)).

(** *** logger *)

Definition logger_debug (fmt : string) (args : list logging.arg) : py.M world unit :=
  py.modify (set_log (λ l, l ++ [{| lvl := DEBUG; fmt := fmt; args := args |}])).

Definition logger_error (fmt : string) (args : list logging.arg) : py.M world unit :=
  py.modify (set_log (λ l, l ++ [{| lvl := ERROR; fmt := fmt; args := args |}])).

(** *** tornado.websocket.WebSocketHandler *)

Definition with_tcp_nodelay (v : bool) (o : WebSocketHandler) : WebSocketHandler :=
  {| ws_jsonrpc := ws_jsonrpc o; ws_remote_ip := ws_remote_ip o;
     ws_connection := ws_connection o; ws_write_fault := ws_write_fault o;
     ws_tcp_nodelay := v; ws_written := ws_written o;
     ws_close_calls := ws_close_calls o |}.

Definition with_written (msg : string) (o : WebSocketHandler) : WebSocketHandler :=
  {| ws_jsonrpc := ws_jsonrpc o; ws_remote_ip := ws_remote_ip o;
     ws_connection := ws_connection o; ws_write_fault := ws_write_fault o;
     ws_tcp_nodelay := ws_tcp_nodelay o; ws_written := ws_written o ++ [msg];
     ws_close_calls := ws_close_calls o |}.

Definition with_closed (o : WebSocketHandler) : WebSocketHandler :=
  {| ws_jsonrpc := ws_jsonrpc o; ws_remote_ip := ws_remote_ip o;
     ws_connection := false; ws_write_fault := Some WebSocketClosedError;
     ws_tcp_nodelay := ws_tcp_nodelay o; ws_written := ws_written o;
     ws_close_calls := S (ws_close_calls o) |}.

Definition with_ws_jsonrpc (j : JsonRpcWrapper) (o : WebSocketHandler) : WebSocketHandler :=
  {| ws_jsonrpc := j; ws_remote_ip := ws_remote_ip o;
     ws_connection := ws_connection o; ws_write_fault := ws_write_fault o;
     ws_tcp_nodelay := ws_tcp_nodelay o; ws_written := ws_written o;
     ws_close_calls := ws_close_calls o |}.

Definition set_nodelay (self : oid) (value : bool) : py.M world unit :=
  py.modify (set_websocket self (with_tcp_nodelay value)).

(** [self.stream.socket.setsockopt(level, optname, value)] *)
Definition setsockopt (self : oid) (level optname value : Z) : py.M world unit :=
  if bool_decide (level = IPPROTO_TCP ∧ optname = TCP_NODELAY)
  then py.modify (set_websocket self (with_tcp_nodelay (negb (value =? 0)%Z)))
  else mret tt.

(** [self.write_message(msg)]: raises when the channel is at fault,
    hands the message to the channel otherwise. *)
Definition write_message (self : oid) (msg : string) : py.M world bool :=
  fault ← ws_attr ws_write_fault self;
  match fault with
  | Some e => py.raise e
  | None =>
      py.modify (set_websocket self (with_written msg));;
      mret write_message_result
  end.

(** [self.close()]: closes the channel and sets [ws_connection] to
    [None]; from then on [write_message] raises. *)
Definition close (self : oid) : py.M world unit :=
  py.modify (set_websocket self with_closed).

(** [rpc.handle_json(request)] *)
Definition jsonrpc_handle_json (rpc : JsonRpcWrapper) (request : string) : py.M world (option string) :=
  λ w, let '(r, cs) := handle_json rpc request (core_state w) in
       (r, set_dispatch cs request w).

(** *** tornado.web.RequestHandler *)

Definition with_header (name value : string) (o : JsonRpcHandler) : JsonRpcHandler :=
  {| rh_jsonrpc := rh_jsonrpc o; rh_remote_ip := rh_remote_ip o;
     rh_body := rh_body o;
     rh_status := rh_status o; rh_reason := rh_reason o; rh_headers := <[name := value]> (rh_headers o);
     rh_written := rh_written o; rh_errors := rh_errors o;
     rh_finished := rh_finished o |}.

Definition with_chunk (chunk : string) (o : JsonRpcHandler) : JsonRpcHandler :=
  {| rh_jsonrpc := rh_jsonrpc o; rh_remote_ip := rh_remote_ip o;
     rh_body := rh_body o;
     rh_status := rh_status o; rh_reason := rh_reason o; rh_headers := rh_headers o;
     rh_written := rh_written o ++ [chunk]; rh_errors := rh_errors o;
     rh_finished := rh_finished o |}.

Definition with_error (status : Z) (o : JsonRpcHandler) : JsonRpcHandler :=
  {| rh_jsonrpc := rh_jsonrpc o; rh_remote_ip := rh_remote_ip o;
     rh_body := rh_body o;
     rh_status := rh_status o; rh_reason := rh_reason o; rh_headers := rh_headers o;
     rh_written := rh_written o;
     rh_errors := rh_errors o ++ [status];
     rh_finished := rh_finished o |}.

Definition with_finished (o : JsonRpcHandler) : JsonRpcHandler :=
  {| rh_jsonrpc := rh_jsonrpc o; rh_remote_ip := rh_remote_ip o;
     rh_body := rh_body o;
     rh_status := rh_status o; rh_reason := rh_reason o; rh_headers := rh_headers o;
     rh_written := rh_written o; rh_errors := rh_errors o;
     rh_finished := true |}.

Definition with_rh_jsonrpc (j : JsonRpcWrapper) (o : JsonRpcHandler) : JsonRpcHandler :=
  {| rh_jsonrpc := j; rh_remote_ip := rh_remote_ip o;
     rh_body := rh_body o;
     rh_status := rh_status o; rh_reason := rh_reason o; rh_headers := rh_headers o;
     rh_written := rh_written o; rh_errors := rh_errors o;
     rh_finished := rh_finished o |}.

Definition set_header (self : oid) (name value : string) : py.M world unit :=
  py.modify (set_request self (with_header name value)).

(** [self.write(chunk)] returns [None]. *)
Definition write (self : oid) (chunk : string) : py.M world bool :=
  py.modify (set_request self (with_chunk chunk));;
  mret false.

(** [self.finish()] *)
Definition finish (self : oid) : py.M world unit :=
  py.modify (set_request self with_finished).

(** [self.write_error(status_code)], without keyword arguments: Tornado
    writes its page for the code and for the reason phrase the response
    has, and finishes the response.  It does not set the status of the
    response; [send_error] does that before it calls [write_error]. *)
Definition write_error (self : oid) (status_code : Z) : py.M world unit :=
  py.modify (set_request self (with_error status_code));;
  reason ← rh_attr rh_reason self;
  write self (error_page status_code reason);;
  finish self.

(** *** class WebSocketHandler

    [clients] is a class attribute: [cls.clients] and [self.clients]
    are the one set of the process state, whatever the instance. *)

Definition broadcast_to (order : list oid) (msg : string) : py.M world unit :=
  py.for_in order (λ client, write_message client msg;; mret tt).

(** The loop visits the members of the set in the order the set
    enumerates them. *)
Definition WebSocketHandler_broadcast (msg : string) : py.M world unit :=
  w ← py.get;
  broadcast_to (elements (clients w)) msg.

Definition WebSocketHandler_initialize (self : oid) (core : actor) : py.M world unit :=
  py.modify (set_websocket self (with_ws_jsonrpc (make_jsonrpc_wrapper core))).

Definition WebSocketHandler_open (self : oid) : py.M world unit :=
  (if has_set_nodelay
   then set_nodelay self true
   else setsockopt self IPPROTO_TCP TCP_NODELAY 1);;
  py.modify (set_clients (λ s, s ∪ {[self]}));;
  remote_ip ← ws_attr ws_remote_ip self;
  logger_debug "New WebSocket connection from %s" [arg_str remote_ip].

Definition WebSocketHandler_on_close (self : oid) : py.M world unit :=
  py.modify (set_clients (λ s, s ∖ {[self]}));;
  remote_ip ← ws_attr ws_remote_ip self;
  logger_debug "Closed WebSocket connection from %s" [arg_str remote_ip].

Definition WebSocketHandler_on_message (self : oid) (message : string) : py.M world unit :=
  if negb (py.truthy message) then mret tt else
  remote_ip ← ws_attr ws_remote_ip self;
  logger_debug "Received WebSocket message from %s: %r"
               [arg_str remote_ip; arg_str message];;
  py.try_except
    (rpc ← ws_attr ws_jsonrpc self;
     response ← jsonrpc_handle_json rpc (native_str message);
     (* if response and self.write_message(response): *)
     match response with
     | Some r =>
         if py.truthy r then
           sent ← write_message self r;
           py.when sent
             (remote_ip ← ws_attr ws_remote_ip self;
              logger_debug "Sent WebSocket message to %s: %r"
                           [arg_str remote_ip; arg_str r])
         else mret tt
     | None => mret tt
     end)
    (λ e,
       logger_error "WebSocket request error: %s" [arg_exc e];;
       usable ← ws_attr ws_connection self;
       py.when usable (close self)).

Definition WebSocketHandler_check_origin (self : oid) (origin : string) : py.M world bool :=
  mret true.

(** *** set_mopidy_headers and class JsonRpcHandler *)

Definition set_mopidy_headers (request_handler : oid) : py.M world unit :=
  set_header request_handler "Cache-Control" "no-cache";;
  set_header request_handler "X-Mopidy-Version" mopidy_version.

Definition JsonRpcHandler_initialize (self : oid) (core : actor) : py.M world unit :=
  py.modify (set_request self (with_rh_jsonrpc (make_jsonrpc_wrapper core))).

Definition JsonRpcHandler_set_extra_headers (self : oid) : py.M world unit :=
  set_mopidy_headers self;;
  set_header self "Accept" "application/json";;
  set_header self "Content-Type" "application/json; utf-8".

Definition JsonRpcHandler_head (self : oid) : py.M world unit :=
  JsonRpcHandler_set_extra_headers self;;
  finish self.

Definition JsonRpcHandler_post (self : oid) : py.M world unit :=
  data ← rh_attr rh_body self;
  if negb (py.truthy data) then mret tt else
  remote_ip ← rh_attr rh_remote_ip self;
  logger_debug "Received RPC message from %s: %r"
               [arg_str remote_ip; arg_str data];;
  py.try_except
    (JsonRpcHandler_set_extra_headers self;;
     rpc ← rh_attr rh_jsonrpc self;
     response ← jsonrpc_handle_json rpc (native_str data);
     (* if response and self.write(response): *)
     match response with
     | Some r =>
         if py.truthy r then
           sent ← write self r;
           py.when sent
             (remote_ip ← rh_attr rh_remote_ip self;
              logger_debug "Sent RPC message to %s: %r"
                           [arg_str remote_ip; arg_str r])
         else mret tt
     | None => mret tt
     end)
    (λ e,
       logger_error "HTTP JSON-RPC request error: %s" [arg_exc e];;
       write_error self 500).

(** The two headers of [set_mopidy_headers] on a response. *)
Definition carries_mopidy_headers (o : JsonRpcHandler) : Prop :=
  rh_headers o !! "Cache-Control" = Some "no-cache" ∧
  rh_headers o !! "X-Mopidy-Version" = Some mopidy_version.

(** *** The gateway as a transition system

    What Tornado and the core's event listener call on the handlers.
    An exception that leaves a callback is logged by Tornado and the
    process goes on in the state the callback left. *)

Inductive event :=
| ev_open (h : oid)
| ev_on_close (h : oid)
| ev_on_message (h : oid) (message : string)
| ev_check_origin (h : oid) (origin : string)
| ev_broadcast (msg : string)
| ev_head (h : oid)
| ev_post (h : oid).

Definition handle (ev : event) : py.M world unit :=
  match ev with
  | ev_open h => WebSocketHandler_open h
  | ev_on_close h => WebSocketHandler_on_close h
  | ev_on_message h message => WebSocketHandler_on_message h message
  | ev_check_origin h origin => WebSocketHandler_check_origin h origin;; mret tt
  | ev_broadcast msg => WebSocketHandler_broadcast msg
  | ev_head h => JsonRpcHandler_head h
  | ev_post h => JsonRpcHandler_post h
  end.

Definition step (ev : event) (w : world) : world := snd (handle ev w).

Fixpoint run (evs : list event) (w : world) : world :=
  match evs with
  | [] => w
  | ev :: evs' => run evs' (step ev w)
  end.

(** The last of [open] / [on_close] seen for connection [h], if any:
    [Some true] for [open]. *)
Fixpoint last_lifecycle (h : oid) (evs : list event) : option bool :=
  match evs with
  | [] => None
  | ev :: evs' =>
      match last_lifecycle h evs' with
      | Some b => Some b
      | None =>
          match ev with
          | ev_open h' => if decide (h' = h) then Some true else None
          | ev_on_close h' => if decide (h' = h) then Some false else None
          | _ => None
          end
      end
  end.

End handlers.

Arguments world : clear implicits.

(** ** A concrete process to run the handlers on *)

Module demo.

(** A dispatcher that answers queries, stays silent on notifications and
    fails on one request; the core state counts the calls. *)
Definition scripted (rpc : JsonRpcWrapper) (request : string) : py.M nat (option string) :=
  λ n,
    if decide (request = "crash") then
      (py.Raise (py.Exc py.Exception "ActorDeadError: core stopped"), S n)
    else if decide (request = "notify") then (py.Return None, S n)
    else (py.Return (Some "result"), S n).

Definition env : environment :=
  {| CoreState := nat; handle_json := scripted;
     mopidy_version := "0.19.4"; has_set_nodelay := true;
     write_message_result := false;
     render_string := λ template_name apps,
       String.concat " " (template_name :: apps) |}.

Definition ws_up : WebSocketHandler :=
  {| ws_jsonrpc := make_jsonrpc_wrapper 0; ws_remote_ip := "192.0.2.1";
     ws_connection := true; ws_write_fault := None;
     ws_tcp_nodelay := false; ws_written := []; ws_close_calls := 0 |}.

(** A connection whose channel is gone while [on_close] has not run
    yet. *)
Definition ws_down : WebSocketHandler :=
  {| ws_jsonrpc := make_jsonrpc_wrapper 0; ws_remote_ip := "192.0.2.2";
     ws_connection := false;
     ws_write_fault := Some WebSocketClosedError;
     ws_tcp_nodelay := false; ws_written := []; ws_close_calls := 0 |}.

Definition request (body : string) : JsonRpcHandler :=
  {| rh_jsonrpc := make_jsonrpc_wrapper 0; rh_remote_ip := "192.0.2.9";
     rh_body := body; rh_status := 200; rh_reason := "OK";
     rh_headers := ∅; rh_written := [];
     rh_errors := []; rh_finished := false |}.

(** Request 0 has an empty body, request 1 crashes the dispatcher, the
    others are plain calls.  WebSocket 3 is down, the others are up. *)
Definition start : world env :=
  {| clients := ∅;
     websockets := λ h, if decide (h = 3) then ws_down else ws_up;
     requests := λ h, request (if decide (h = 0) then ""
                               else if decide (h = 1) then "crash"
                               else "call");
     core_state := (0 : @CoreState env); dispatched := []; log := [] |}.

Definition three_clients : world env :=
  run [ev_open 1; ev_open 2; ev_open 3] start.

End demo.

(** ** The rest of the module: the client list, static files, the routes *)

(** A [dict] with string keys, as far as its string entries go: the
    [apps] and [statics] entries are read under ['name'] only. *)
Abbreviation dict := (gmap string string).

Definition KeyError (key : string) : py.exc :=
  py.Exc py.Exception (String.append "KeyError: " key).

Definition TypeError (what : string) : py.exc :=
  py.Exc py.Exception (String.append "TypeError: " what).

(** [d[key]] *)
Definition getitem {S} (d : dict) (key : string) : py.M S string :=
  match d !! key with
  | Some v => mret v
  | None => py.raise (KeyError key)
  end.

(** [for x in xs: acc = body acc x], for a loop that updates a local. *)
Fixpoint for_fold {S X A} (xs : list X) (body : A → X → py.M S A) (acc : A) : py.M S A :=
  match xs with
  | [] => mret acc
  | x :: xs' => acc' ← body acc x; for_fold xs' body acc'
  end.

(** [sorted(l)] on strings: ascending in the order of [str], character
    code by character code. *)
Definition sorted (l : list string) : list string := merge_sort String.le l.

(** An instance of [ClientListHandler]; what it inherits from
    [tornado.web.RequestHandler] is kept in [requests] under the same
    identity. *)
Record ClientListHandler := {
  cl_apps : list dict;                          (* self.apps *)
  cl_statics : list dict;                       (* self.statics *)
  cl_rendered : list (string * list string);    (* render(name, apps=...) *)
}.

(** The classes a route can name, and the values its keyword arguments
    hold. *)
Inductive handler_class :=
| cls_WebSocketHandler | cls_JsonRpcHandler
| cls_StaticFileHandler | cls_ClientListHandler.

Inductive kwarg :=
| kw_actor (core : actor)
| kw_str (s : string)
| kw_dicts (l : list dict).

(** [(pattern, handler class, keyword arguments of initialize)] *)
Definition route : Type := string * handler_class * gmap string kwarg.

Section site.

Context {E : environment}.

(** [os.path.join(os.path.dirname(__file__), 'data')] *)
Variable data_path : string.

Record site := {
  process : world E;
  client_lists : oid → ClientListHandler;
}.

(** A computation on the gateway process, run within the site. *)
Definition in_process {A} (c : py.M (world E) A) : py.M site A :=
  λ s, let '(r, w) := c (process s) in
       (r, {| process := w; client_lists := client_lists s |}).

Definition set_client_list (self : oid) (f : ClientListHandler → ClientListHandler) (s : site) : site :=
  {| process := process s;
     client_lists := alter f self (client_lists s) |}.

Definition cl_attr {A} (f : ClientListHandler → A) (self : oid) : py.M site A :=
  s ← py.get; mret (f (client_lists s self)).

Definition with_rendered (template_name : string) (apps : list string) (o : ClientListHandler) : ClientListHandler :=
  {| cl_apps := cl_apps o; cl_statics := cl_statics o;
     cl_rendered := cl_rendered o ++ [(template_name, apps)] |}.

(** [self.render(template_name, apps=apps)]: the page the template gives
    is written to the response, and the response is finished. *)
Definition render (self : oid) (template_name : string) (apps : list string) : py.M site unit :=
  py.modify (set_client_list self (with_rendered template_name apps));;
  in_process (write self (render_string template_name apps));;
  in_process (finish self).

(** *** class ClientListHandler *)

Definition ClientListHandler_initialize (self : oid) (apps statics : list dict) : py.M site unit :=
  py.modify (set_client_list self (λ o,
    {| cl_apps := apps; cl_statics := statics; cl_rendered := cl_rendered o |})).

Definition ClientListHandler_get (self : oid) : py.M site unit :=
  in_process (set_mopidy_headers self);;
  apps ← cl_attr cl_apps self;
  names ← for_fold apps
             (λ names app, name ← getitem app "name"; mret (names ∪ {[name]}))
             (∅ : gset string);
  statics ← cl_attr cl_statics self;
  names ← for_fold statics
             (λ names static, name ← getitem static "name"; mret (names ∪ {[name]}))
             names;
  let names := names ∖ {["mopidy"]} in
  render self "data/clients.html" (sorted (elements names)).

(** *** class StaticFileHandler *)

Definition StaticFileHandler_set_extra_headers (self : oid) (path : string) : py.M (world E) unit :=
  set_mopidy_headers self.

(** *** make_mopidy_app_factory *)

Definition make_mopidy_app_factory (apps statics : list dict) {Config : Type} : Config → actor → list route :=
  λ config core,
    [ ("/ws/?", cls_WebSocketHandler, {[ "core" := kw_actor core ]});
      ("/rpc", cls_JsonRpcHandler, {[ "core" := kw_actor core ]});
      ("/(.+)", cls_StaticFileHandler, {[ "path" := kw_str data_path ]});
      ("/", cls_ClientListHandler,
         <[ "apps" := kw_dicts apps ]> {[ "statics" := kw_dicts statics ]}) ].

(** What Tornado does with a route when a request for it arrives: it
    creates the handler [self] and calls [self.initialize] with the
    keyword arguments of the route.  A
    keyword that is no parameter of [initialize], or a parameter without
    default that is not given, is a [TypeError]; so is, here, a value of
    another kind than the one the parameter is used as. *)
Definition instantiate (r : route) (self : oid) : py.M site unit :=
  let '(_, cls, kwargs) := r in
  match cls with
  | cls_WebSocketHandler =>
      if decide (dom kwargs = {["core"]}) then
        match kwargs !! "core" with
        | Some (kw_actor core) => in_process (WebSocketHandler_initialize self core)
        | _ => py.raise (TypeError "core")
        end
      else py.raise (TypeError "initialize()")
  | cls_JsonRpcHandler =>
      if decide (dom kwargs = {["core"]}) then
        match kwargs !! "core" with
        | Some (kw_actor core) => in_process (JsonRpcHandler_initialize self core)
        | _ => py.raise (TypeError "core")
        end
      else py.raise (TypeError "initialize()")
  | cls_StaticFileHandler =>
      (* tornado.web.StaticFileHandler.initialize(path, default_filename=None) *)
      if decide ("path" ∈ dom kwargs ∧ dom kwargs ⊆ {["path"; "default_filename"]})
      then mret tt
      else py.raise (TypeError "initialize()")
  | cls_ClientListHandler =>
      if decide (dom kwargs = {["apps"; "statics"]}) then
        match kwargs !! "apps", kwargs !! "statics" with
        | Some (kw_dicts apps), Some (kw_dicts statics) =>
            ClientListHandler_initialize self apps statics
        | _, _ => py.raise (TypeError "apps, statics")
        end
      else py.raise (TypeError "initialize()")
  end.

(** The names a list of app or static dicts gives, if each has one. *)
Definition names_of (ds : list dict) : option (list string) :=
  mapM (λ d : dict, d !! "name") ds.

End site.

Arguments site : clear implicits.

(** ** A concrete site *)

Module site_demo.

Definition apps : list dict :=
  [ {[ "name" := "musicbox" ]}; {[ "name" := "mopidy" ]};
    <[ "name" := "apollo" ]> {[ "path" := "/srv/apollo" ]} ].

Definition statics : list dict :=
  [ {[ "name" := "moped" ]}; {[ "name" := "apollo" ]} ].

(** A static without a name. *)
Definition broken_statics : list dict :=
  [ {[ "name" := "moped" ]}; {[ "path" := "/srv/www" ]} ].

Definition client_list (apps statics : list dict) : ClientListHandler :=
  {| cl_apps := apps; cl_statics := statics; cl_rendered := [] |}.

(** Client list 1 has a static without a name; client list 2 has the
    entries of the sound ones in another order and on the other list. *)
Definition start : site demo.env :=
  {| process := demo.start;
     client_lists := λ h,
       if decide (h = 1) then client_list apps broken_statics
       else if decide (h = 2) then client_list (reverse statics) (reverse apps)
       else client_list apps statics |}.

(** A dispatcher that is interrupted on every call. *)
Definition interrupted (rpc : JsonRpcWrapper) (request : string) : py.M nat (option string) :=
  λ n, (py.Raise (py.Exc py.BaseException "KeyboardInterrupt"), S n).

Definition env_interrupted : environment :=
  {| CoreState := nat; handle_json := interrupted;
     mopidy_version := "0.19.4"; has_set_nodelay := false;
     write_message_result := true;
     render_string := λ template_name apps,
       String.concat " " (template_name :: apps) |}.

Definition start_interrupted : world env_interrupted :=
  {| clients := ∅;
     websockets := λ _, demo.ws_up;
     requests := λ _, demo.request "call";
     core_state := (0 : @CoreState env_interrupted);
     dispatched := []; log := [] |}.

End site_demo.

(** * Properties *)

(** Running a callback symbolically. *)
Ltac py_run :=
  unfold JsonRpcHandler_post, JsonRpcHandler_head,
    JsonRpcHandler_set_extra_headers, set_mopidy_headers,
    WebSocketHandler_on_message, write_message, write, write_error, finish,
    close, set_header, jsonrpc_handle_json, logger_debug, logger_error,
    ws_attr, rh_attr, mbind, mret, py_bind, py_ret, py.try_except, py.when,
    py.bind, py.ret, py.modify, py.get, py.raise;
  simpl.

(** ** Frame rules for the monad *)

Section frame.
Context {S X : Type} (f : S → X).

Lemma keeps_ret {A} (a : A) : py.keeps f (mret a : py.M S A).
Proof. by intros s. Qed.

Lemma keeps_raise {A} e : py.keeps f (py.raise e : py.M S A).
Proof. by intros s. Qed.

Lemma keeps_get : py.keeps f (py.get : py.M S S).
Proof. by intros s. Qed.

Lemma keeps_modify (g : S → S) :
  (∀ s, f (g s) = f s) → py.keeps f (py.modify g).
Proof. intros Hg s. apply Hg. Qed.

Lemma keeps_bind {A B} (c : py.M S A) (k : A → py.M S B) :
  py.keeps f c → (∀ a, py.keeps f (k a)) → py.keeps f (c ≫= k).
Proof.
  intros Hc Hk s. unfold mbind, py_bind, py.bind.
  specialize (Hc s). destruct (c s) as [[a|e] s']; simpl in *.
  - by rewrite Hk.
  - done.
Qed.

Lemma keeps_try_except {A} (body : py.M S A) handler :
  py.keeps f body → (∀ e, py.keeps f (handler e)) →
  py.keeps f (py.try_except body handler).
Proof.
  intros Hb Hh s. unfold py.try_except.
  specialize (Hb s). destruct (body s) as [[a|e] s']; simpl in *; [done|].
  destruct (py.exc_type e); simpl; [by rewrite Hh | done].
Qed.

Lemma keeps_when (b : bool) (c : py.M S unit) :
  py.keeps f c → py.keeps f (py.when b c).
Proof. destruct b; [done | by intros _ s]. Qed.

Lemma keeps_for_in {E} (xs : list E) (body : E → py.M S unit) :
  (∀ x, py.keeps f (body x)) → py.keeps f (py.for_in xs body).
Proof.
  intros Hb. induction xs as [|x xs IH]; [by intros s|].
  simpl. apply (keeps_bind (body x) (λ _, py.for_in xs body)); auto.
Qed.

End frame.

Create HintDb keeps.
#[export] Hint Resolve keeps_ret keeps_raise keeps_get keeps_bind
  keeps_try_except keeps_when keeps_for_in : keeps.

(** ** What the Tornado calls, the logger and the dispatcher leave alone *)

Section stable.
Context {E : environment} {X : Type} (f : world E → X) (Hf : stable f).

Lemma keeps_ws_attr {A} (g : WebSocketHandler → A) self : py.keeps f (ws_attr g self).
Proof. by intros w. Qed.

Lemma keeps_rh_attr {A} (g : JsonRpcHandler → A) self : py.keeps f (rh_attr g self).
Proof. by intros w. Qed.

Lemma keeps_logger_debug fmt args : py.keeps f (logger_debug fmt args).
Proof. apply keeps_modify, Hf. Qed.

Lemma keeps_logger_error fmt args : py.keeps f (logger_error fmt args).
Proof. apply keeps_modify, Hf. Qed.

Lemma keeps_set_nodelay self v : py.keeps f (set_nodelay self v).
Proof. apply keeps_modify. intros w. by apply Hf. Qed.

Lemma keeps_setsockopt self level optname value :
  py.keeps f (setsockopt self level optname value).
Proof.
  unfold setsockopt. case_bool_decide; [|apply keeps_ret].
  apply keeps_modify. intros w. by apply Hf.
Qed.

Lemma keeps_write_message self msg : py.keeps f (write_message self msg).
Proof.
  unfold write_message. apply keeps_bind; [apply keeps_ws_attr|].
  intros [e|]; [apply keeps_raise|].
  apply keeps_bind; [|intros; apply keeps_ret].
  apply keeps_modify. intros w. by apply Hf.
Qed.

Lemma keeps_close self : py.keeps f (close self).
Proof. apply keeps_modify. intros w. by apply Hf. Qed.

Lemma keeps_jsonrpc_handle_json rpc request :
  py.keeps f (jsonrpc_handle_json rpc request).
Proof.
  intros w. unfold jsonrpc_handle_json.
  destruct (handle_json rpc request (core_state w)) as [r cs]. apply Hf.
Qed.

Lemma keeps_set_header self name value : py.keeps f (set_header self name value).
Proof. apply keeps_modify. intros w. by apply Hf. Qed.

Lemma keeps_write self chunk : py.keeps f (write self chunk).
Proof.
  apply keeps_bind; [|intros; apply keeps_ret].
  apply keeps_modify. intros w. by apply Hf.
Qed.

Lemma keeps_write_error self status : py.keeps f (write_error self status).
Proof.
  unfold write_error.
  apply keeps_bind; [apply keeps_modify; intros w; by apply Hf|]. intros _.
  apply keeps_bind; [apply keeps_rh_attr|]. intros reason.
  apply keeps_bind; [apply keeps_write|]. intros _.
  apply keeps_modify. intros w. by apply Hf.
Qed.

Lemma keeps_finish self : py.keeps f (finish self).
Proof. apply keeps_modify. intros w. by apply Hf. Qed.

Hint Resolve keeps_ws_attr keeps_rh_attr keeps_logger_debug
  keeps_logger_error keeps_set_nodelay keeps_setsockopt keeps_write_message
  keeps_close keeps_jsonrpc_handle_json keeps_set_header keeps_write
  keeps_write_error keeps_finish : keeps.

Lemma keeps_broadcast msg : py.keeps f (WebSocketHandler_broadcast msg).
Proof. unfold WebSocketHandler_broadcast, broadcast_to. eauto 10 with keeps. Qed.

Lemma keeps_on_message self message :
  py.keeps f (WebSocketHandler_on_message self message).
Proof.
  unfold WebSocketHandler_on_message.
  destruct (py.truthy message); simpl; [|apply keeps_ret].
  apply keeps_bind; [eauto with keeps|]. intros ip.
  apply keeps_bind; [eauto with keeps|]. intros _.
  apply keeps_try_except; [|eauto 10 with keeps].
  apply keeps_bind; [eauto with keeps|]. intros rpc.
  apply keeps_bind; [eauto with keeps|]. intros [r|]; [|apply keeps_ret].
  destruct (py.truthy r); eauto 10 with keeps.
Qed.

Lemma keeps_check_origin self origin :
  py.keeps f (WebSocketHandler_check_origin self origin).
Proof. apply keeps_ret. Qed.

Lemma keeps_set_extra_headers self :
  py.keeps f (JsonRpcHandler_set_extra_headers self).
Proof.
  unfold JsonRpcHandler_set_extra_headers, set_mopidy_headers.
  eauto 10 with keeps.
Qed.

Lemma keeps_head self : py.keeps f (JsonRpcHandler_head self).
Proof.
  apply keeps_bind; [apply keeps_set_extra_headers | eauto with keeps].
Qed.

Lemma keeps_post self : py.keeps f (JsonRpcHandler_post self).
Proof.
  unfold JsonRpcHandler_post.
  apply keeps_bind; [eauto with keeps|]. intros data.
  destruct (py.truthy data); simpl; [|apply keeps_ret].
  apply keeps_bind; [eauto with keeps|]. intros ip.
  apply keeps_bind; [eauto with keeps|]. intros _.
  apply keeps_try_except; [|eauto 10 with keeps].
  apply keeps_bind; [apply keeps_set_extra_headers|]. intros _.
  apply keeps_bind; [eauto with keeps|]. intros rpc.
  apply keeps_bind; [eauto with keeps|]. intros [r|]; [|apply keeps_ret].
  destruct (py.truthy r); eauto 10 with keeps.
Qed.

End stable.

(** ** The observations the claims are about *)

Section observations.
Context {E : environment}.

Lemma stable_clients : stable (clients : world E → gset oid).
Proof. by repeat split. Qed.

Lemma stable_ws_jsonrpc h : stable (λ w : world E, ws_jsonrpc (websockets w h)).
Proof.
  repeat split; try done.
  intros self g w Hg. simpl. unfold alter, fn_alter.
  case_decide; subst; [apply Hg | done].
Qed.

Lemma stable_rh_jsonrpc h : stable (λ w : world E, rh_jsonrpc (requests w h)).
Proof.
  repeat split; try done.
  intros self g w Hg. simpl. unfold alter, fn_alter.
  case_decide; subst; [apply Hg | done].
Qed.

(** An observation that also ignores the client set is kept by every
    callback. *)
Lemma keeps_handle {X} (f : world E → X) ev :
  stable f → (∀ g w, f (set_clients g w) = f w) → py.keeps f (handle ev).
Proof.
  intros Hf Hc.
  assert (∀ self fmt, py.keeps f
            (remote_ip ← ws_attr ws_remote_ip self;
             logger_debug fmt [arg_str remote_ip])) as Hlog.
  { intros. apply keeps_bind; [apply keeps_ws_attr|].
    intros. by apply keeps_logger_debug. }
  destruct ev; simpl.
  - unfold WebSocketHandler_open.
    apply keeps_bind.
    { destruct has_set_nodelay;
        [by apply keeps_set_nodelay | by apply keeps_setsockopt]. }
    intros _. apply keeps_bind; [by apply keeps_modify|].
    intros _. apply Hlog.
  - unfold WebSocketHandler_on_close.
    apply keeps_bind; [by apply keeps_modify|]. intros _. apply Hlog.
  - by apply keeps_on_message.
  - apply keeps_bind; [apply keeps_check_origin | intros; apply keeps_ret].
  - by apply keeps_broadcast.
  - by apply keeps_head.
  - by apply keeps_post.
Qed.

Lemma keeps_run {X} (f : world E → X) evs w :
  stable f → (∀ g w, f (set_clients g w) = f w) → f (run evs w) = f w.
Proof.
  intros Hf Hc. revert w.
  induction evs as [|ev evs IH]; intros w; [done|].
  simpl. rewrite IH. by apply keeps_handle.
Qed.

(** The client set after one callback. *)
Lemma clients_step ev (w : world E) :
  clients (step ev w) =
    match ev with
    | ev_open h => clients w ∪ {[h]}
    | ev_on_close h => clients w ∖ {[h]}
    | _ => clients w
    end.
Proof.
  unfold step. destruct ev.
  - simpl. unfold WebSocketHandler_open. by destruct has_set_nodelay.
  - done.
  - apply (keeps_on_message clients stable_clients).
  - done.
  - apply (keeps_broadcast clients stable_clients).
  - apply (keeps_head clients stable_clients).
  - apply (keeps_post clients stable_clients).
Qed.

Lemma clients_run c evs (w : world E) :
  c ∈ clients (run evs w) ↔
    (match last_lifecycle c evs with
     | Some opened => opened = true
     | None => c ∈ clients w
     end).
Proof.
  revert w. induction evs as [|ev evs IH]; intros w; [done|].
  simpl. rewrite IH, clients_step.
  destruct (last_lifecycle c evs) as [b|]; [done|].
  clear IH. destruct ev as [h|h| | | | |]; try reflexivity;
    destruct (decide (h = c)) as [->|Hne];
    rewrite ?elem_of_union, ?elem_of_difference, ?elem_of_singleton;
    intuition congruence.
Qed.

End observations.

(** ** Writing to one connection, and to a sequence of them *)

Section broadcast.
Context {E : environment}.

Lemma write_message_ok self msg (w : world E) :
  ws_write_fault (websockets w self) = None →
  write_message self msg w =
    (py.Return write_message_result, set_websocket self (with_written msg) w).
Proof.
  intros Hok. unfold write_message, ws_attr, mbind, py_bind, py.bind. simpl.
  by rewrite Hok.
Qed.

Lemma write_message_fault self msg (w : world E) e :
  ws_write_fault (websockets w self) = Some e →
  write_message self msg w = (py.Raise e, w).
Proof.
  intros Hf. unfold write_message, ws_attr, mbind, py_bind, py.bind. simpl.
  by rewrite Hf.
Qed.

Lemma for_in_app {S X} (xs ys : list X) (body : X → py.M S unit) s :
  py.for_in (xs ++ ys) body s =
    match py.for_in xs body s with
    | (py.Return _, s') => py.for_in ys body s'
    | (py.Raise e, s') => (py.Raise e, s')
    end.
Proof.
  revert s. induction xs as [|x xs IH]; intros s; [done|].
  simpl. unfold py.bind. destruct (body x s) as [[[]|e] s']; [apply IH | done].
Qed.

(** Over connections that all accept the write, the loop runs to its
    end and each of them has got the message once. *)
Lemma broadcast_to_healthy order msg (w : world E) :
  NoDup order →
  (∀ c, c ∈ order → ws_write_fault (websockets w c) = None) →
  ∃ w',
    broadcast_to order msg w = (py.Return tt, w') ∧
    clients w' = clients w ∧
    (∀ c, c ∈ order → websockets w' c = with_written msg (websockets w c)) ∧
    (∀ c, c ∉ order → websockets w' c = websockets w c).
Proof.
  intros Hnd. revert w.
  induction Hnd as [|x order Hx Hnd IH]; intros w Hok.
  - exists w. split; [done|]. split; [done|]. split; [|done].
    intros c Hc. by apply elem_of_nil in Hc.
  - unfold broadcast_to. simpl.
    unfold py.bind at 1, mbind at 1, py_bind at 1, py.bind at 1.
    rewrite write_message_ok by (apply Hok; left).
    simpl.
    destruct (IH (set_websocket x (with_written msg) w)) as (w' & Hrun & Hcl & Hin & Hout).
    { intros c Hc. simpl. rewrite fn_lookup_alter_ne by (intros ->; done).
      apply Hok. by right. }
    exists w'. split; [exact Hrun|]. split; [by rewrite Hcl|]. split.
    + intros c [->|Hc]%elem_of_cons.
      * rewrite Hout by done. simpl. by rewrite fn_lookup_alter.
      * rewrite Hin by done. simpl.
        rewrite fn_lookup_alter_ne; [done|]. by intros ->.
    + intros c Hc. apply not_elem_of_cons in Hc as [Hne Hc].
      rewrite Hout by done. simpl. by rewrite fn_lookup_alter_ne.
Qed.

End broadcast.

(** ** The handlers, one by one *)

Section claims.
Context {E : environment}.

(** [s.add(c)] with [c] in [s], [s.discard(c)] with [c] not in [s] *)
Lemma add_member (c : oid) (s : gset oid) : c ∈ s → s ∪ {[c]} = s.
Proof.
  intros Hc. apply set_eq. intros x.
  rewrite elem_of_union, elem_of_singleton. intuition congruence.
Qed.

Lemma discard_absent (c : oid) (s : gset oid) : c ∉ s → s ∖ {[c]} = s.
Proof.
  intros Hc. apply set_eq. intros x.
  rewrite elem_of_difference, elem_of_singleton. intuition congruence.
Qed.

Lemma run_app evs1 evs2 (w : world E) :
  run (evs1 ++ evs2) w = run evs2 (run evs1 w).
Proof. revert w. induction evs1 as [|ev evs1 IH]; intros w; [done|]. apply IH. Qed.

(** C2: over every sequence of callbacks the registry holds exactly the
    connections whose last lifecycle callback was [open] (and those of
    the start that saw none); after [open(c)] it holds [c], after
    [on_close(c)] it does not; the set enumerates no connection twice and
    a second [open] does not change it; [on_close] of a connection that
    is not registered returns normally and leaves the set as it was. *)
Theorem registry_tracks_open_connections (evs : list event) (w : world E) (c : oid) :
  (c ∈ clients (run evs w) ↔
     (match last_lifecycle c evs with
      | Some opened => opened = true
      | None => c ∈ clients w
      end)) ∧
  c ∈ clients (run (evs ++ [ev_open c]) w) ∧
  (c ∉ clients (run (evs ++ [ev_on_close c]) w)) ∧
  NoDup (elements (clients (run evs w))) ∧
  (c ∈ clients w → clients (step (ev_open c) w) = clients w) ∧
  (c ∉ clients w →
     fst (WebSocketHandler_on_close c w) = py.Return tt ∧
     clients (snd (WebSocketHandler_on_close c w)) = clients w).
Proof.
  split; [apply clients_run|].
  rewrite !run_app. simpl. rewrite !clients_step.
  split; [by apply elem_of_union_r, elem_of_singleton|].
  split.
  { rewrite elem_of_difference, elem_of_singleton. tauto. }
  split; [apply NoDup_elements|].
  split; [apply add_member|].
  intros Hc. split; [done|].
  change (clients (step (ev_on_close c) w) = clients w).
  rewrite clients_step. by apply discard_absent.
Qed.

(** C8: a wrapper built by [make_jsonrpc_wrapper] has exactly the seven
    names, each bound to its target on the given core actor;
    [core.describe] is bound to an inspector whose table is the dispatch
    table without [core.describe], each target replaced by its class in
    [mopidy.core]; and whatever callbacks run after [initialize], the
    handler still holds that wrapper. *)
Theorem capability_table_is_fixed (core_actor : actor) (evs : list event) (w : world E) (h : oid) :
  let rpc := make_jsonrpc_wrapper core_actor in
  dom (objects rpc) =
    {[ "core.describe"; "core.get_uri_schemes"; "core.get_version";
       "core.library"; "core.playback"; "core.playlists";
       "core.tracklist" ]} ∧
  objects rpc !! "core.get_uri_schemes" = Some (actor_attr core_actor get_uri_schemes) ∧
  objects rpc !! "core.get_version" = Some (actor_attr core_actor get_version) ∧
  objects rpc !! "core.library" = Some (actor_attr core_actor library) ∧
  objects rpc !! "core.playback" = Some (actor_attr core_actor playback) ∧
  objects rpc !! "core.playlists" = Some (actor_attr core_actor playlists) ∧
  objects rpc !! "core.tracklist" = Some (actor_attr core_actor tracklist) ∧
  (∃ inspector,
     objects rpc !! "core.describe" = Some (inspector_describe inspector) ∧
     dom (inspector_objects inspector) = dom (objects rpc) ∖ {["core.describe"]} ∧
     inspector_objects inspector = omap described (objects rpc)) ∧
  ws_jsonrpc (websockets
    (run evs (snd (WebSocketHandler_initialize h core_actor w))) h) = rpc ∧
  rh_jsonrpc (requests
    (run evs (snd (JsonRpcHandler_initialize h core_actor w))) h) = rpc.
Proof.
  intros rpc.
  assert (dom (objects rpc) =
    {[ "core.describe"; "core.get_uri_schemes"; "core.get_version";
       "core.library"; "core.playback"; "core.playlists";
       "core.tracklist" ]}) as Hdom.
  { unfold rpc, make_jsonrpc_wrapper. simpl.
    rewrite !dom_insert_L, dom_empty_L. set_solver. }
  split; [exact Hdom|].
  do 6 (split; [reflexivity|]).
  split.
  - eexists. split; [reflexivity|]. split; [|reflexivity].
    rewrite Hdom. simpl. rewrite !dom_insert_L, dom_empty_L. set_solver.
  - split.
    + rewrite (keeps_run (λ w, ws_jsonrpc (websockets w h)));
        [|apply stable_ws_jsonrpc|done].
      simpl. by rewrite fn_lookup_alter.
    + rewrite (keeps_run (λ w, rh_jsonrpc (requests w h)));
        [|apply stable_rh_jsonrpc|done].
      simpl. by rewrite fn_lookup_alter.
Qed.

(** C10: [check_origin] answers [True] for every origin, for every
    handler, and touches nothing. *)
Theorem check_origin_accepts_every_origin (self : oid) (origin : string) (w : world E) :
  WebSocketHandler_check_origin self origin w = (py.Return true, w).
Proof. reflexivity. Qed.

(** C4: an empty WebSocket message and an empty POST body are no-ops,
    each on its own: the callback returns normally in the state it started
    in, so the dispatcher has not been called and nothing has been
    written. *)
Theorem empty_payload_is_a_no_op (self : oid) (message : string) (w : world E) :
  (py.truthy message = false →
     WebSocketHandler_on_message self message w = (py.Return tt, w)) ∧
  (py.truthy (rh_body (requests w self)) = false →
     JsonRpcHandler_post self w = (py.Return tt, w)).
Proof.
  split.
  - intros Hmsg. unfold WebSocketHandler_on_message. by rewrite Hmsg.
  - intros Hbody. unfold JsonRpcHandler_post, rh_attr. simpl.
    unfold mbind, py_bind, py.bind. simpl. by rewrite Hbody.
Qed.

(** C1, as the code has it: the loop of [broadcast] has no handler
    around [write_message].  At the first connection, in the order the
    set enumerates its members, whose write raises, the exception leaves
    [broadcast]; the connections before it have got the message, the
    connections after it have got nothing. *)
Theorem broadcast_stops_at_first_write_failure (msg : string) (w : world E) (before after : list oid) (c : oid) (e : py.exc) :
  elements (clients w) = before ++ c :: after →
  (∀ b, b ∈ before → ws_write_fault (websockets w b) = None) →
  ws_write_fault (websockets w c) = Some e →
  fst (WebSocketHandler_broadcast msg w) = py.Raise e ∧
  (∀ b, b ∈ before →
     ws_written (websockets (snd (WebSocketHandler_broadcast msg w)) b)
     = ws_written (websockets w b) ++ [msg]) ∧
  (∀ a, a ∈ after →
     ws_written (websockets (snd (WebSocketHandler_broadcast msg w)) a)
     = ws_written (websockets w a)).
Proof.
  intros Hel Hok Hfault.
  pose proof (NoDup_elements (clients w)) as Hnd. rewrite Hel in Hnd.
  apply list.NoDup_app in Hnd as (Hnd1 & Hdisj & Hnd2).
  destruct (broadcast_to_healthy before msg w Hnd1 Hok)
    as (w1 & Hrun & _ & Hin & Hout).
  assert (WebSocketHandler_broadcast msg w = (py.Raise e, w1)) as ->.
  { unfold WebSocketHandler_broadcast, mbind, py_bind, py.bind. simpl.
    rewrite Hel. unfold broadcast_to. rewrite for_in_app.
    fold (broadcast_to before msg w). rewrite Hrun. simpl.
    unfold py.bind at 1, mbind at 1, py_bind at 1, py.bind at 1.
    rewrite write_message_fault with (e := e); [done|].
    rewrite Hout; [done|]. intros Hc. apply (Hdisj c Hc). left. }
  simpl. split; [done|]. split.
  - intros b Hb. by rewrite Hin.
  - intros a Ha. rewrite Hout; [done|].
    intros Hb. apply (Hdisj a Hb). by right.
Qed.

(** The loop of [broadcast] up to the first connection whose write
    raises. *)
Lemma broadcast_ends_at_fault (msg : string) (w : world E) (before after : list oid) (c : oid) (e : py.exc) :
  elements (clients w) = before ++ c :: after →
  (∀ b, b ∈ before → ws_write_fault (websockets w b) = None) →
  ws_write_fault (websockets w c) = Some e →
  fst (WebSocketHandler_broadcast msg w) = py.Raise e ∧
  (∀ a, a ∈ after →
     websockets (snd (WebSocketHandler_broadcast msg w)) a = websockets w a).
Proof.
  intros Hel Hok Hfault.
  pose proof (NoDup_elements (clients w)) as Hnd. rewrite Hel in Hnd.
  apply list.NoDup_app in Hnd as (Hnd1 & Hdisj & Hnd2).
  destruct (broadcast_to_healthy before msg w Hnd1 Hok)
    as (w1 & Hrun & _ & Hin & Hout).
  assert (WebSocketHandler_broadcast msg w = (py.Raise e, w1)) as ->.
  { unfold WebSocketHandler_broadcast, mbind, py_bind, py.bind. simpl.
    rewrite Hel. unfold broadcast_to. rewrite for_in_app.
    fold (broadcast_to before msg w). rewrite Hrun. simpl.
    unfold py.bind at 1, mbind at 1, py_bind at 1, py.bind at 1.
    rewrite write_message_fault with (e := e); [done|].
    rewrite Hout; [done|]. intros Hc. apply (Hdisj c Hc). left. }
  simpl. split; [done|].
  intros a Ha. apply Hout. intros Hb. apply (Hdisj a Hb). by right.
Qed.

(** C9, as the code has it: there is one registry.  Handler instances
    set up for any two core actors register in the same set, [on_close]
    of an instance removes it from that set and from no other, and a
    broadcast goes over that set.  When every registered connection
    accepts the write, each of them gets the message, whoever registered
    it.  But at the first connection whose write raises, the broadcast
    ends with that exception, and the connections the set enumerates
    after it are left as they were: open or not, they get nothing. *)
Theorem one_registry_for_all_instances (w : world E) (h1 h2 : oid) (core1 core2 : actor) (msg : string) :
  let w0 := snd (WebSocketHandler_initialize h2 core2
              (snd (WebSocketHandler_initialize h1 core1 w))) in
  let w' := run [ev_open h1; ev_open h2] w0 in
  clients w' = clients w ∪ {[h1]} ∪ {[h2]} ∧
  clients (run [ev_open h1; ev_open h2; ev_on_close h1] w0)
    = (clients w ∪ {[h1]} ∪ {[h2]}) ∖ {[h1]} ∧
  ((∀ c, c ∈ clients w' → ws_write_fault (websockets w' c) = None) →
     fst (WebSocketHandler_broadcast msg w') = py.Return tt ∧
     (∀ c, c ∈ clients w' →
        ws_written (websockets (snd (WebSocketHandler_broadcast msg w')) c)
        = ws_written (websockets w' c) ++ [msg])) ∧
  (∀ before c after e,
     elements (clients w') = before ++ c :: after →
     (∀ b, b ∈ before → ws_write_fault (websockets w' b) = None) →
     ws_write_fault (websockets w' c) = Some e →
     fst (WebSocketHandler_broadcast msg w') = py.Raise e ∧
     (∀ a, a ∈ after →
        ws_written (websockets (snd (WebSocketHandler_broadcast msg w')) a)
        = ws_written (websockets w' a))).
Proof.
  intros w0 w'.
  assert (clients w' = clients w ∪ {[h1]} ∪ {[h2]}) as Hcl.
  { unfold w'. simpl. by rewrite !clients_step. }
  split; [exact Hcl|]. split.
  { change (run [ev_open h1; ev_open h2; ev_on_close h1] w0)
      with (step (ev_on_close h1) w').
    by rewrite clients_step, Hcl. }
  split.
  - intros Hok.
    destruct (broadcast_to_healthy (elements (clients w')) msg w')
      as (w1 & Hrun & _ & Hin & _).
    { apply NoDup_elements. }
    { intros c Hc. apply Hok. by apply elem_of_elements. }
    assert (WebSocketHandler_broadcast msg w' = (py.Return tt, w1)) as ->.
    { unfold WebSocketHandler_broadcast, mbind, py_bind, py.bind. simpl.
      exact Hrun. }
    split; [done|].
    intros c Hc. simpl. rewrite Hin; [done|]. by apply elem_of_elements.
  - intros before c after e Hel Hok Hfault.
    destruct (broadcast_ends_at_fault msg w' before after c e Hel Hok Hfault)
      as [Hraise Hafter].
    split; [exact Hraise|]. intros a Ha. by rewrite Hafter.
Qed.


(** C5, as the code has it: a POST with a body on which the dispatcher
    raises an [Exception] returns normally and calls [write_error(500)].
    That writes Tornado's page for the code and finishes the response, but
    it does not set the status: the response keeps the status and the
    reason it had, so a fresh response goes out as 200 with a page that
    says 500.  The exception itself goes to the log only; the page is made
    of the code and the reason phrase. *)
Theorem post_dispatch_failure_keeps_the_status (self : oid) (w : world E) (e : py.exc) (cs : CoreState) :
  py.truthy (rh_body (requests w self)) = true →
  handle_json (rh_jsonrpc (requests w self))
              (native_str (rh_body (requests w self))) (core_state w)
    = (py.Raise e, cs) →
  py.exc_type e = py.Exception →
  let r := JsonRpcHandler_post self w in
  let response := requests (snd r) self in
  fst r = py.Return tt ∧
  rh_status response = rh_status (requests w self) ∧
  rh_reason response = rh_reason (requests w self) ∧
  rh_errors response = rh_errors (requests w self) ++ [500%Z] ∧
  rh_written response =
    rh_written (requests w self)
      ++ [error_page 500 (rh_reason (requests w self))] ∧
  rh_finished response = true ∧
  list.last (log (snd r)) =
    Some {| lvl := ERROR; fmt := "HTTP JSON-RPC request error: %s";
            args := [arg_exc e] |}.
Proof.
  intros Hbody Hraise Hexc. py_run.
  rewrite Hbody. simpl. rewrite !fn_lookup_alter. simpl.
  rewrite Hraise. simpl. rewrite Hexc. simpl.
  rewrite !fn_lookup_alter. simpl.
  repeat split. by rewrite last_snoc.
Qed.

(** C3: when the dispatcher raises an [Exception] on a WebSocket
    message, or answers and the write of the answer raises one,
    [on_message] returns normally, the error is logged, and
    [self.close()] is called exactly when [ws_connection] is set. *)
Theorem on_message_contains_failures (self : oid) (message : string) (w : world E) (e : py.exc) :
  py.truthy message = true →
  py.exc_type e = py.Exception →
  (let answer := handle_json (ws_jsonrpc (websockets w self))
                             (native_str message) (core_state w) in
   fst answer = py.Raise e ∨
   (∃ r, fst answer = py.Return (Some r) ∧ py.truthy r = true ∧
         ws_write_fault (websockets w self) = Some e)) →
  let r := WebSocketHandler_on_message self message w in
  fst r = py.Return tt ∧
  list.last (log (snd r)) =
    Some {| lvl := ERROR; fmt := "WebSocket request error: %s";
            args := [arg_exc e] |} ∧
  ws_close_calls (websockets (snd r) self) =
    (if ws_connection (websockets w self)
     then S (ws_close_calls (websockets w self))
     else ws_close_calls (websockets w self)).
Proof.
  intros Hmsg Hexc Hfail. py_run. rewrite Hmsg. simpl.
  destruct (handle_json (ws_jsonrpc (websockets w self))
                        (native_str message) (core_state w))
    as [answer cs] eqn:Hanswer.
  simpl in Hfail. destruct Hfail as [->|(r & -> & Hr & Hfault)]; simpl.
  - rewrite Hexc. simpl.
    destruct (ws_connection (websockets w self)); simpl;
      rewrite ?fn_lookup_alter, last_snoc; done.
  - rewrite Hr. simpl. rewrite Hfault. simpl. rewrite Hexc. simpl.
    destruct (ws_connection (websockets w self)); simpl;
      rewrite ?fn_lookup_alter, last_snoc; done.
Qed.

(** What [except Exception] does not catch leaves [on_message]. *)
Lemma on_message_passes_base_exceptions (self : oid) (message : string) (w : world E) (e : py.exc) :
  py.truthy message = true →
  py.exc_type e = py.BaseException →
  fst (handle_json (ws_jsonrpc (websockets w self))
                   (native_str message) (core_state w)) = py.Raise e →
  fst (WebSocketHandler_on_message self message w) = py.Raise e.
Proof.
  intros Hmsg Hexc Hraise. py_run. rewrite Hmsg. simpl.
  destruct (handle_json (ws_jsonrpc (websockets w self))
                        (native_str message) (core_state w)) as [answer cs].
  simpl in Hraise. subst answer. simpl. by rewrite Hexc.
Qed.

(** C7, amended: the response of [head], and the response of [post] on a
    request with a body, whatever the dispatcher does, carry
    [Cache-Control: no-cache] and [X-Mopidy-Version]; [post] on an empty
    body leaves the headers as they were. *)
Theorem responses_carry_mopidy_headers (self : oid) (w : world E) :
  carries_mopidy_headers (requests (snd (JsonRpcHandler_head self w)) self) ∧
  (py.truthy (rh_body (requests w self)) = true →
     carries_mopidy_headers (requests (snd (JsonRpcHandler_post self w)) self)) ∧
  (py.truthy (rh_body (requests w self)) = false →
     rh_headers (requests (snd (JsonRpcHandler_post self w)) self)
     = rh_headers (requests w self)).
Proof.
  unfold carries_mopidy_headers. split; [|split].
  - simpl. rewrite !fn_lookup_alter. simpl. split; by simplify_map_eq.
  - intros Hbody. py_run. rewrite Hbody. simpl.
    rewrite !fn_lookup_alter. simpl.
    destruct (handle_json (rh_jsonrpc (requests w self))
                          (native_str (rh_body (requests w self)))
                          (core_state w)) as [[[r|]|e] cs]; simpl.
    + destruct (py.truthy r); simpl; rewrite !fn_lookup_alter; simpl;
        split; by simplify_map_eq.
    + rewrite !fn_lookup_alter. simpl. split; by simplify_map_eq.
    + destruct (py.exc_type e); simpl; rewrite !fn_lookup_alter; simpl;
        split; by simplify_map_eq.
  - intros Hbody. py_run. by rewrite Hbody.
Qed.

End claims.

(** ** The theorems at work on the concrete process *)

Lemma registry_tracks_open_connections_demo :
  let evs := [ev_open 1; ev_on_message 1 "call"; ev_on_close 1; ev_open 2] in
  (1 ∉ clients (run evs demo.start)) ∧
  2 ∈ clients (run evs demo.start) ∧
  clients (step (ev_open 2) (run evs demo.start)) = clients (run evs demo.start) ∧
  fst (WebSocketHandler_on_close 1 (run evs demo.start)) = py.Return tt ∧
  clients (snd (WebSocketHandler_on_close 1 (run evs demo.start)))
  = clients (run evs demo.start).
Proof.
  intros evs.
  destruct (registry_tracks_open_connections evs demo.start 1)
    as (Hin1 & _).
  destruct (registry_tracks_open_connections evs (run evs demo.start) 1)
    as (_ & _ & _ & _ & _ & Hclose).
  destruct (registry_tracks_open_connections evs (run evs demo.start) 2)
    as (_ & _ & _ & _ & Hopen & _).
  destruct (registry_tracks_open_connections evs demo.start 2)
    as (Hin2 & _).
  assert (1 ∉ clients (run evs demo.start)) as Hout.
  { intros Hc. apply Hin1 in Hc. vm_compute in Hc. discriminate. }
  assert (2 ∈ clients (run evs demo.start)) as Hin.
  { apply Hin2. reflexivity. }
  split; [exact Hout|]. split; [exact Hin|].
  split; [exact (Hopen Hin)|]. exact (Hclose Hout).
Defined.

Lemma empty_payload_is_a_no_op_demo :
  WebSocketHandler_on_message 1 "" demo.start = (py.Return tt, demo.start) ∧
  JsonRpcHandler_post 0 demo.start = (py.Return tt, demo.start).
Proof.
  split.
  - apply (empty_payload_is_a_no_op 1 "" demo.start). reflexivity.
  - apply (empty_payload_is_a_no_op 0 "" demo.start). reflexivity.
Defined.

Lemma post_dispatch_failure_keeps_the_status_demo :
  let e := py.Exc py.Exception "ActorDeadError: core stopped" in
  let r := JsonRpcHandler_post 1 demo.start in
  fst r = py.Return tt ∧
  rh_status (requests (snd r) 1) = 200%Z ∧
  rh_reason (requests (snd r) 1) = "OK" ∧
  rh_errors (requests (snd r) 1) = [500%Z] ∧
  rh_written (requests (snd r) 1) =
    ["<html><title>500: OK</title><body>500: OK</body></html>"] ∧
  rh_finished (requests (snd r) 1) = true ∧
  list.last (log (snd r)) =
    Some {| lvl := ERROR; fmt := "HTTP JSON-RPC request error: %s";
            args := [arg_exc e] |}.
Proof.
  intros e.
  apply (post_dispatch_failure_keeps_the_status 1 demo.start e 1); reflexivity.
Defined.

Lemma on_message_contains_failures_demo :
  let e := py.Exc py.Exception "ActorDeadError: core stopped" in
  let r := WebSocketHandler_on_message 1 "crash" demo.start in
  fst r = py.Return tt ∧
  list.last (log (snd r)) =
    Some {| lvl := ERROR; fmt := "WebSocket request error: %s";
            args := [arg_exc e] |} ∧
  ws_close_calls (websockets (snd r) 1) = 1.
Proof.
  intros e.
  apply (on_message_contains_failures 1 "crash" demo.start e);
    [reflexivity | reflexivity | left; reflexivity].
Defined.

Lemma broadcast_stops_at_first_write_failure_demo :
  let e := py.Exc py.Exception "WebSocketClosedError" in
  let r := WebSocketHandler_broadcast "event" demo.three_clients in
  elements (clients demo.three_clients) = [2; 3; 1] ∧
  fst r = py.Raise e ∧
  (∀ b, b ∈ [2] → ws_written (websockets (snd r) b)
                   = ws_written (websockets demo.three_clients b) ++ ["event"]) ∧
  (∀ a, a ∈ [1] → ws_written (websockets (snd r) a)
                   = ws_written (websockets demo.three_clients a)).
Proof.
  intros e. split; [reflexivity|].
  apply (broadcast_stops_at_first_write_failure "event" demo.three_clients [2] [1] 3 e).
  - reflexivity.
  - intros b Hb. apply list_elem_of_singleton in Hb. subst b. reflexivity.
  - reflexivity.
Defined.

(** With the dead connection as the only client the outcome does not
    depend on any order. *)
Example broadcast_to_one_dead_client :
  WebSocketHandler_broadcast "event" (step (ev_open 3) demo.start)
  = (py.Raise (py.Exc py.Exception "WebSocketClosedError"),
     step (ev_open 3) demo.start).
Proof. reflexivity. Qed.

Lemma one_registry_for_all_instances_demo :
  let w0 := snd (WebSocketHandler_initialize 3 8
              (snd (WebSocketHandler_initialize 1 7 demo.start))) in
  let w' := run [ev_open 1; ev_open 3] w0 in
  1 ∈ clients w' ∧
  ws_write_fault (websockets w' 1) = None ∧
  fst (WebSocketHandler_broadcast "event" w') = py.Raise WebSocketClosedError ∧
  ws_written (websockets (snd (WebSocketHandler_broadcast "event" w')) 1)
    = ws_written (websockets w' 1).
Proof.
  intros w0 w'.
  destruct (one_registry_for_all_instances demo.start 1 3 7 8 "event")
    as (Hcl & _ & _ & Hfail).
  fold w0 w' in Hcl, Hfail.
  destruct (Hfail [] 3 [1] WebSocketClosedError) as [Hraise Hafter];
    [reflexivity | intros b Hb; by apply elem_of_nil in Hb | reflexivity |].
  split.
  { rewrite Hcl. apply elem_of_union_l, elem_of_union_r. by apply elem_of_singleton. }
  split; [reflexivity|]. split; [exact Hraise|].
  apply Hafter, list_elem_of_here.
Defined.

Lemma responses_carry_mopidy_headers_demo :
  carries_mopidy_headers (E := demo.env) (requests (snd (JsonRpcHandler_head 0 demo.start)) 0) ∧
  carries_mopidy_headers (E := demo.env) (requests (snd (JsonRpcHandler_post 1 demo.start)) 1) ∧
  carries_mopidy_headers (E := demo.env) (requests (snd (JsonRpcHandler_post 5 demo.start)) 5) ∧
  rh_headers (requests (snd (JsonRpcHandler_post 0 demo.start)) 0) = ∅.
Proof.
  destruct (responses_carry_mopidy_headers 0 demo.start) as (Hhead & _ & Hempty).
  destruct (responses_carry_mopidy_headers 1 demo.start) as (_ & Hcrash & _).
  destruct (responses_carry_mopidy_headers 5 demo.start) as (_ & Hcall & _).
  split; [exact Hhead|].
  split; [apply Hcrash; reflexivity|].
  split; [apply Hcall; reflexivity|].
  apply Hempty. reflexivity.
Defined.

(** C7 as stated fails on an empty body: [post] returns before
    [set_extra_headers], so that response has neither header. *)
Lemma empty_post_response_lacks_mopidy_headers :
  ¬ carries_mopidy_headers (E := demo.env) (requests (snd (JsonRpcHandler_post 0 demo.start)) 0).
Proof. intros [Hcache _]. vm_compute in Hcache. discriminate. Qed.

(** * More of the module *)

(** ** The WebSocket and JSON-RPC handlers on their other paths *)

Section more_claims.
Context {E : environment}.

(** Everything a callback can come across, case by case. *)
Ltac py_cases :=
  repeat (simpl;
          match goal with
          | |- context [match ?x with _ => _ end] =>
              lazymatch x with
              | context [match _ with _ => _ end] => fail
              | _ => destruct x eqn:?
              end
          end);
  simpl.

(** X1: a message the dispatcher answers is answered on the connection it
    came from, once: the response is appended to what that connection has
    been sent, every other connection and the registry are left alone, and
    the callback returns normally. *)
Theorem on_message_writes_response_to_sender (self : oid) (message r : string) (w : world E) (cs : CoreState) :
  py.truthy message = true →
  handle_json (ws_jsonrpc (websockets w self)) (native_str message) (core_state w)
    = (py.Return (Some r), cs) →
  py.truthy r = true →
  ws_write_fault (websockets w self) = None →
  let res := WebSocketHandler_on_message self message w in
  fst res = py.Return tt ∧
  websockets (snd res) self = with_written r (websockets w self) ∧
  (∀ c, c ≠ self → websockets (snd res) c = websockets w c) ∧
  clients (snd res) = clients w ∧
  core_state (snd res) = cs.
Proof.
  intros Hmsg Hanswer Hr Hok. py_run. rewrite Hmsg. simpl.
  rewrite Hanswer. simpl. rewrite Hr. simpl. rewrite Hok. simpl.
  destruct write_message_result; simpl; rewrite fn_lookup_alter;
    (split; [done|]); (split; [done|]); (split; [|done]);
    intros c Hc; by rewrite fn_lookup_alter_ne.
Qed.

(** X2: a message the dispatcher has no answer to (a notification, or an
    empty answer) is dispatched and nothing else: no connection is written
    to or closed, and only the debug line of the receipt is logged. *)
Theorem on_message_without_response_writes_nothing (self : oid) (message : string) (w : world E) (resp : option string) (cs : CoreState) :
  py.truthy message = true →
  handle_json (ws_jsonrpc (websockets w self)) (native_str message) (core_state w)
    = (py.Return resp, cs) →
  match resp with Some r => py.truthy r = false | None => True end →
  let res := WebSocketHandler_on_message self message w in
  fst res = py.Return tt ∧
  (∀ c, websockets (snd res) c = websockets w c) ∧
  core_state (snd res) = cs ∧
  log (snd res) =
    log w ++ [{| lvl := DEBUG; fmt := "Received WebSocket message from %s: %r";
                 args := [arg_str (ws_remote_ip (websockets w self));
                          arg_str message] |}].
Proof.
  intros Hmsg Hanswer Hresp. py_run. rewrite Hmsg. simpl.
  rewrite Hanswer. simpl.
  destruct resp as [r|]; [rewrite Hresp|]; done.
Qed.

(** X3: a non-empty payload reaches the dispatcher exactly once, whatever
    comes of it (answer, silence, failure of the dispatcher or of the
    write): on either transport, each on its own, the trace of dispatched
    payloads grows by that payload and the core is left as the dispatcher
    left it. *)
Theorem payload_is_dispatched_exactly_once (self : oid) (message : string) (w : world E) :
  (py.truthy message = true →
     dispatched (snd (WebSocketHandler_on_message self message w))
       = dispatched w ++ [native_str message] ∧
     core_state (snd (WebSocketHandler_on_message self message w))
       = snd (handle_json (ws_jsonrpc (websockets w self))
                          (native_str message) (core_state w))) ∧
  (py.truthy (rh_body (requests w self)) = true →
     dispatched (snd (JsonRpcHandler_post self w))
       = dispatched w ++ [native_str (rh_body (requests w self))] ∧
     core_state (snd (JsonRpcHandler_post self w))
       = snd (handle_json (rh_jsonrpc (requests w self))
                          (native_str (rh_body (requests w self))) (core_state w))).
Proof.
  split.
  - intros Hmsg. py_run. rewrite Hmsg. simpl.
    destruct (handle_json (ws_jsonrpc (websockets w self))
                          (native_str message) (core_state w)) as [answer cs].
    py_cases; done.
  - intros Hbody. py_run. rewrite Hbody. simpl. rewrite !fn_lookup_alter. simpl.
    destruct (handle_json (rh_jsonrpc (requests w self))
                          (native_str (rh_body (requests w self)))
                          (core_state w)) as [answer cs].
    py_cases; done.
Qed.

(** X19: what [except Exception] does not catch leaves [on_message] as it
    left the dispatcher: the exception propagates, no error is logged and
    the connection is neither written to nor closed. *)
Theorem on_message_lets_base_exceptions_through (self : oid) (message : string) (w : world E) (e : py.exc) :
  py.truthy message = true →
  py.exc_type e = py.BaseException →
  fst (handle_json (ws_jsonrpc (websockets w self))
                   (native_str message) (core_state w)) = py.Raise e →
  let res := WebSocketHandler_on_message self message w in
  fst res = py.Raise e ∧
  (∀ c, websockets (snd res) c = websockets w c) ∧
  log (snd res) =
    log w ++ [{| lvl := DEBUG; fmt := "Received WebSocket message from %s: %r";
                 args := [arg_str (ws_remote_ip (websockets w self));
                          arg_str message] |}].
Proof.
  intros Hmsg Hexc Hraise. py_run. rewrite Hmsg. simpl.
  destruct (handle_json (ws_jsonrpc (websockets w self))
                        (native_str message) (core_state w)) as [answer cs].
  simpl in Hraise. subst answer. simpl. by rewrite Hexc.
Qed.

(** X4: when the dispatcher returns, a POST writes its answer to the body
    once if there is one, and nothing if there is none; no error page is
    produced, the handler does not finish the response itself, other
    requests are left alone, and the log gets the debug line of the
    receipt only ([write] returns [None], so the line for the sent answer
    is never logged). *)
Theorem post_writes_the_response_once (self : oid) (w : world E) (resp : option string) (cs : CoreState) :
  py.truthy (rh_body (requests w self)) = true →
  handle_json (rh_jsonrpc (requests w self))
              (native_str (rh_body (requests w self))) (core_state w)
    = (py.Return resp, cs) →
  let res := JsonRpcHandler_post self w in
  fst res = py.Return tt ∧
  rh_written (requests (snd res) self) =
    rh_written (requests w self) ++
      (match resp with
       | Some r => if py.truthy r then [r] else []
       | None => []
       end) ∧
  rh_errors (requests (snd res) self) = rh_errors (requests w self) ∧
  rh_finished (requests (snd res) self) = rh_finished (requests w self) ∧
  (∀ c, c ≠ self → requests (snd res) c = requests w c) ∧
  log (snd res) =
    log w ++ [{| lvl := DEBUG; fmt := "Received RPC message from %s: %r";
                 args := [arg_str (rh_remote_ip (requests w self));
                          arg_str (rh_body (requests w self))] |}].
Proof.
  intros Hbody Hanswer. py_run. rewrite Hbody. simpl.
  rewrite !fn_lookup_alter. simpl. rewrite Hanswer. simpl.
  destruct resp as [r|]; [destruct (py.truthy r)|]; simpl;
    rewrite !fn_lookup_alter; simpl; rewrite ?app_nil_r;
    (split; [done|]); (split; [done|]); (split; [done|]);
    (split; [done|]); (split; [|done]);
    intros c Hc; by rewrite !fn_lookup_alter_ne.
Qed.

(** X5: what [except Exception] does not catch leaves [post] as it left
    the dispatcher: the exception propagates, no error page is produced,
    nothing is written to the body and no error is logged. *)
Theorem post_passes_base_exceptions (self : oid) (w : world E) (e : py.exc) :
  py.truthy (rh_body (requests w self)) = true →
  py.exc_type e = py.BaseException →
  fst (handle_json (rh_jsonrpc (requests w self))
                   (native_str (rh_body (requests w self))) (core_state w))
    = py.Raise e →
  let res := JsonRpcHandler_post self w in
  fst res = py.Raise e ∧
  rh_errors (requests (snd res) self) = rh_errors (requests w self) ∧
  rh_written (requests (snd res) self) = rh_written (requests w self) ∧
  log (snd res) =
    log w ++ [{| lvl := DEBUG; fmt := "Received RPC message from %s: %r";
                 args := [arg_str (rh_remote_ip (requests w self));
                          arg_str (rh_body (requests w self))] |}].
Proof.
  intros Hbody Hexc Hraise. py_run. rewrite Hbody. simpl.
  rewrite !fn_lookup_alter. simpl.
  destruct (handle_json (rh_jsonrpc (requests w self))
                        (native_str (rh_body (requests w self)))
                        (core_state w)) as [answer cs].
  simpl in Hraise. subst answer. simpl. rewrite Hexc. simpl.
  by rewrite !fn_lookup_alter.
Qed.

(** X6: [open] turns TCP_NODELAY on for the connection on either branch,
    with [set_nodelay] where Tornado has it and through [setsockopt]
    where not; nothing else of the connection changes, no other
    connection is touched, and the callback returns normally. *)
Theorem open_sets_tcp_nodelay (self : oid) (w : world E) :
  let res := WebSocketHandler_open self w in
  fst res = py.Return tt ∧
  websockets (snd res) self = with_tcp_nodelay true (websockets w self) ∧
  (∀ c, c ≠ self → websockets (snd res) c = websockets w c) ∧
  log (snd res) =
    log w ++ [{| lvl := DEBUG; fmt := "New WebSocket connection from %s";
                 args := [arg_str (ws_remote_ip (websockets w self))] |}].
Proof.
  unfold WebSocketHandler_open.
  destruct has_set_nodelay; simpl; rewrite !fn_lookup_alter; simpl;
    (split; [done|]); (split; [done|]); (split; [|done]);
    intros c Hc; by rewrite fn_lookup_alter_ne.
Qed.

(** X7: a callback on one handler leaves the other handlers alone,
    whatever happens in it: [on_message] changes no other connection and
    no HTTP response, [post] changes no other response and no
    connection. *)
Theorem callbacks_touch_only_their_own_handler (self c : oid) (message : string) (w : world E) :
  c ≠ self →
  websockets (snd (WebSocketHandler_on_message self message w)) c = websockets w c ∧
  (∀ d, requests (snd (WebSocketHandler_on_message self message w)) d = requests w d) ∧
  requests (snd (JsonRpcHandler_post self w)) c = requests w c ∧
  (∀ d, websockets (snd (JsonRpcHandler_post self w)) d = websockets w d).
Proof.
  intros Hc. split; [|split; [|split]].
  - py_run. py_cases; rewrite ?fn_lookup_alter_ne; done.
  - intros d. py_run. py_cases; done.
  - py_run. py_cases; rewrite ?fn_lookup_alter_ne; done.
  - intros d. py_run. py_cases; done.
Qed.

(** X8: the registry is back at its starting membership once every
    connection that was opened during a run has been closed again: if no
    connection's last lifecycle callback is [open], and none that was
    registered at the start has been closed, the set after the run is the
    set before it, whatever messages, broadcasts and requests came in
    between. *)
Theorem registry_returns_to_start (evs : list event) (w : world E) :
  (∀ c, last_lifecycle c evs ≠ Some true) →
  (∀ c, last_lifecycle c evs = Some false → c ∉ clients w) →
  clients (run evs w) = clients w.
Proof.
  intros Hopen Hclosed. apply set_eq. intros c. rewrite clients_run.
  specialize (Hopen c). specialize (Hclosed c).
  destruct (last_lifecycle c evs) as [[]|]; [done| |done].
  split; [done|]. intros Hc. by destruct Hclosed.
Qed.

(** X9: [StaticFileHandler.set_extra_headers] puts the two mopidy headers
    on the response of a static file and leaves every other header, the
    content type Tornado chose among them, as it was; the path plays no
    part. *)
Theorem static_files_get_only_the_mopidy_headers (self : oid) (path name : string) (w : world E) :
  name ≠ "Cache-Control" →
  name ≠ "X-Mopidy-Version" →
  let res := StaticFileHandler_set_extra_headers self path w in
  fst res = py.Return tt ∧
  carries_mopidy_headers (requests (snd res) self) ∧
  rh_headers (requests (snd res) self) !! name = rh_headers (requests w self) !! name ∧
  rh_written (requests (snd res) self) = rh_written (requests w self) ∧
  rh_finished (requests (snd res) self) = rh_finished (requests w self).
Proof.
  intros Hcache Hversion. unfold carries_mopidy_headers. simpl.
  rewrite !fn_lookup_alter. simpl.
  repeat split; by simplify_map_eq.
Qed.

Lemma broadcast_to_cons x order msg (w : world E) :
  broadcast_to (x :: order) msg w =
    match write_message x msg w with
    | (py.Return _, w') => broadcast_to order msg w'
    | (py.Raise e, w') => (py.Raise e, w')
    end.
Proof.
  unfold broadcast_to. simpl. unfold mbind, py_bind, py.bind.
  by destruct (write_message x msg w) as [[sent|e] w'].
Qed.

(** What the loop of [broadcast] can change: the messages written to the
    connections it visits. *)
Lemma broadcast_to_frame order msg (w : world E) :
  let res := broadcast_to order msg w in
  clients (snd res) = clients w ∧
  requests (snd res) = requests w ∧
  core_state (snd res) = core_state w ∧
  dispatched (snd res) = dispatched w ∧
  log (snd res) = log w ∧
  (∀ c, c ∉ order → websockets (snd res) c = websockets w c) ∧
  (∀ c, ws_close_calls (websockets (snd res) c) = ws_close_calls (websockets w c) ∧
        ws_connection (websockets (snd res) c) = ws_connection (websockets w c)).
Proof.
  revert w. induction order as [|x order IH]; intros w; [done|].
  cbv zeta. rewrite broadcast_to_cons.
  destruct (ws_write_fault (websockets w x)) as [e|] eqn:Hfault.
  - rewrite write_message_fault with (e := e) by done. done.
  - rewrite write_message_ok by done.
    destruct (IH (set_websocket x (with_written msg) w))
      as (Hcl & Hreq & Hcore & Hdisp & Hlog & Hout & Hsame).
    repeat split; try done.
    + intros c Hc. apply not_elem_of_cons in Hc as [Hne Hc].
      rewrite Hout by done. simpl. by rewrite fn_lookup_alter_ne.
    + destruct (Hsame c) as [-> _]. simpl.
      unfold alter, fn_alter. by case_decide; subst.
    + destruct (Hsame c) as [_ ->]. simpl.
      unfold alter, fn_alter. by case_decide; subst.
Qed.

(** X10: [broadcast] reaches registered connections only and does nothing
    but write: a connection that is not in the registry is left exactly as
    it was, also when the broadcast fails on the way; the registry, the
    HTTP responses, the core, the dispatcher trace and the log are
    unchanged, and no connection is closed. *)
Theorem broadcast_reaches_registered_connections_only (msg : string) (w : world E) (c : oid) :
  c ∉ clients w →
  let res := WebSocketHandler_broadcast msg w in
  websockets (snd res) c = websockets w c ∧
  clients (snd res) = clients w ∧
  requests (snd res) = requests w ∧
  core_state (snd res) = core_state w ∧
  dispatched (snd res) = dispatched w ∧
  log (snd res) = log w ∧
  (∀ d, ws_close_calls (websockets (snd res) d) = ws_close_calls (websockets w d)).
Proof.
  intros Hc.
  destruct (broadcast_to_frame (elements (clients w)) msg w)
    as (Hcl & Hreq & Hcore & Hdisp & Hlog & Hout & Hsame).
  change (WebSocketHandler_broadcast msg w)
    with (broadcast_to (elements (clients w)) msg w).
  repeat split; try done.
  - apply Hout. by rewrite elem_of_elements.
  - intros d. apply Hsame.
Qed.

(** X11: once [on_close] has run for a connection, no broadcast writes to
    it any more: after any run in which the connection's last lifecycle
    callback is [on_close], a broadcast leaves the connection as it
    was. *)
Theorem closed_connection_gets_no_broadcast (evs : list event) (msg : string) (w : world E) (c : oid) :
  last_lifecycle c evs = Some false →
  websockets (snd (WebSocketHandler_broadcast msg (run evs w))) c
  = websockets (run evs w) c.
Proof.
  intros Hlast.
  destruct (broadcast_to_frame (elements (clients (run evs w))) msg (run evs w))
    as (_ & _ & _ & _ & _ & Hout & _).
  change (WebSocketHandler_broadcast msg (run evs w))
    with (broadcast_to (elements (clients (run evs w))) msg (run evs w)).
  apply Hout. rewrite elem_of_elements, clients_run, Hlast. done.
Qed.

End more_claims.

(** ** The client list and the routes *)

Section site_claims.
Context {E : environment}.

(** The loop over the app or static dicts: it ends with the names added
    to the set, or at the first dict without a name. *)
Lemma for_fold_names {S} (ds : list dict) (acc : gset string) (s : S) :
  for_fold ds (λ names d, name ← getitem d "name"; mret (names ∪ {[name]}))
           acc s =
    match names_of ds with
    | Some ns => (py.Return (acc ∪ list_to_set ns), s)
    | None => (py.Raise (KeyError "name"), s)
    end.
Proof.
  revert acc. induction ds as [|d ds IH]; intros acc.
  - simpl. unfold mret, py_ret, py.ret. by rewrite (right_id_L ∅ (∪)).
  - unfold names_of in *. simpl.
    unfold mbind at 1, py_bind at 1, py.bind at 1.
    unfold getitem, mbind, py_bind, py.bind, option_bind.
    destruct (d !! "name") as [n|]; simpl; [|done].
    rewrite IH. destruct (mapM (λ d0 : dict, d0 !! "name") ds) as [ns|]; simpl; [|done].
    by rewrite (assoc_L (∪)).
Qed.

Lemma names_of_elem_of (ds : list dict) (ns : list string) (n : string) :
  names_of ds = Some ns →
  n ∈ ns ↔ ∃ d, d ∈ ds ∧ d !! "name" = Some n.
Proof.
  unfold names_of. rewrite mapM_Some. intros Hall.
  induction Hall as [|d m ds ns Hd Hall IH].
  - split; [by intros ?%elem_of_nil | by intros (d & ?%elem_of_nil & _)].
  - rewrite elem_of_cons, IH. split.
    + intros [->|(d' & Hin & Hname)];
        [exists d | exists d']; split; try done; [left | by right].
    + intros (d' & [->|Hin]%elem_of_cons & Hname);
        [left; congruence | right; eauto].
Qed.

Lemma names_of_is_Some (ds : list dict) :
  (∀ d, d ∈ ds → is_Some (d !! "name")) → is_Some (names_of ds).
Proof.
  intros Hall. unfold names_of. apply mapM_is_Some, Forall_forall.
  intros d Hd. by apply Hall.
Qed.

Lemma names_of_None (ds : list dict) (d : dict) :
  d ∈ ds → d !! "name" = None → names_of ds = None.
Proof.
  intros Hd Hname. unfold names_of. apply mapM_None, Exists_exists. eauto.
Qed.

(** What [get] comes to. *)
Lemma ClientListHandler_get_eq (self : oid) (s : site E) :
  ClientListHandler_get self s =
    let w1 := snd (set_mopidy_headers self (process s)) in
    match names_of (cl_apps (client_lists s self)),
          names_of (cl_statics (client_lists s self)) with
    | Some na, Some ns =>
        let names := sorted (elements ((∅ ∪ list_to_set na ∪ list_to_set ns)
                                         ∖ {["mopidy"]} : gset string)) in
        let page := render_string "data/clients.html" names in
        (py.Return tt,
         {| process := snd (finish self (snd (write self page w1)));
            client_lists :=
              alter (with_rendered "data/clients.html" names) self
                    (client_lists s) |})
    | _, _ =>
        (py.Raise (KeyError "name"),
         {| process := w1; client_lists := client_lists s |})
    end.
Proof.
  unfold ClientListHandler_get.
  unfold mbind at 1 2 3, py_bind at 1 2 3, py.bind at 1 2 3. simpl.
  rewrite for_fold_names.
  destruct (names_of (cl_apps (client_lists s self))) as [na|]; [|done].
  unfold mbind at 1 2, py_bind at 1 2, py.bind at 1 2. simpl.
  rewrite for_fold_names.
  by destruct (names_of (cl_statics (client_lists s self))) as [ns|].
Qed.

(** The list handed to the template, for apps and statics that all have a
    name. *)
Lemma rendered_names_spec (apps statics : list dict) (na ns : list string) :
  names_of apps = Some na →
  names_of statics = Some ns →
  let names := sorted (elements ((∅ ∪ list_to_set na ∪ list_to_set ns)
                                   ∖ {["mopidy"]} : gset string)) in
  StronglySorted String.le names ∧
  NoDup names ∧
  (∀ n, n ∈ names ↔
        n ≠ "mopidy" ∧ ∃ d, d ∈ apps ++ statics ∧ d !! "name" = Some n).
Proof.
  intros Hna Hns names. unfold names, sorted. split; [|split].
  - apply StronglySorted_merge_sort; apply _.
  - rewrite merge_sort_Permutation. apply NoDup_elements.
  - intros n. rewrite merge_sort_Permutation, elem_of_elements.
    rewrite elem_of_difference, !elem_of_union, !elem_of_list_to_set.
    rewrite elem_of_empty, elem_of_singleton.
    rewrite (names_of_elem_of apps na n Hna), (names_of_elem_of statics ns n Hns).
    split.
    + intros [[[[]|(d & Hd & Hn)]|(d & Hd & Hn)] Hne]; (split; [done|]);
        exists d; (split; [|done]); apply elem_of_app; auto.
    + intros [Hne (d & [Hd|Hd]%elem_of_app & Hn)]; (split; [|done]); eauto.
Qed.

(** X12: for apps and statics that all have a name, [get] renders
    [data/clients.html] once, with the names of the apps and of the
    statics in ascending order, each name once, and without [mopidy]. *)
Theorem client_list_renders_sorted_names (self : oid) (s : site E) :
  (∀ d, d ∈ cl_apps (client_lists s self) ++ cl_statics (client_lists s self) →
        is_Some (d !! "name")) →
  ∃ names,
    fst (ClientListHandler_get self s) = py.Return tt ∧
    cl_rendered (client_lists (snd (ClientListHandler_get self s)) self)
      = cl_rendered (client_lists s self) ++ [("data/clients.html", names)] ∧
    StronglySorted String.le names ∧
    NoDup names ∧
    (∀ n, n ∈ names ↔
          n ≠ "mopidy" ∧
          ∃ d, d ∈ cl_apps (client_lists s self) ++ cl_statics (client_lists s self)
               ∧ d !! "name" = Some n).
Proof.
  intros Hall.
  destruct (names_of_is_Some (cl_apps (client_lists s self))) as [na Hna].
  { intros d Hd. apply Hall, elem_of_app. by left. }
  destruct (names_of_is_Some (cl_statics (client_lists s self))) as [ns Hns].
  { intros d Hd. apply Hall, elem_of_app. by right. }
  rewrite ClientListHandler_get_eq. cbv zeta. rewrite Hna, Hns.
  eexists. split; [reflexivity|]. split.
  { simpl. rewrite fn_lookup_alter. reflexivity. }
  by apply rendered_names_spec.
Qed.

(** X13: an app or a static without a name makes [get] fail with
    [KeyError] before anything is rendered: the exception leaves [get],
    [render] has not been called, nothing has been written to the body and
    the response has not been finished. *)
Theorem client_list_fails_on_a_missing_name (self : oid) (s : site E) (d : dict) :
  d ∈ cl_apps (client_lists s self) ++ cl_statics (client_lists s self) →
  d !! "name" = None →
  let res := ClientListHandler_get self s in
  fst res = py.Raise (KeyError "name") ∧
  cl_rendered (client_lists (snd res) self) = cl_rendered (client_lists s self) ∧
  rh_written (requests (process (snd res)) self)
    = rh_written (requests (process s) self) ∧
  rh_finished (requests (process (snd res)) self)
    = rh_finished (requests (process s) self).
Proof.
  intros Hd Hname. cbv zeta. rewrite ClientListHandler_get_eq. cbv zeta.
  assert (names_of (cl_apps (client_lists s self)) = None ∨
          names_of (cl_statics (client_lists s self)) = None) as Hnone.
  { apply elem_of_app in Hd as [Hd|Hd];
      [left | right]; by apply (names_of_None _ d). }
  destruct Hnone as [-> | ->];
    [|destruct (names_of (cl_apps (client_lists s self)))];
    simpl; by rewrite !fn_lookup_alter.
Qed.

(** X14: what is rendered depends on the set of names only: two client
    lists whose apps and statics give the same names, in whatever order,
    how often and on whichever of the two lists, render the same list. *)
Theorem client_list_depends_on_the_names_only (self1 self2 : oid) (s1 s2 : site E) :
  let dicts1 := cl_apps (client_lists s1 self1) ++ cl_statics (client_lists s1 self1) in
  let dicts2 := cl_apps (client_lists s2 self2) ++ cl_statics (client_lists s2 self2) in
  (∀ d, d ∈ dicts1 → is_Some (d !! "name")) →
  (∀ d, d ∈ dicts2 → is_Some (d !! "name")) →
  (∀ n, (∃ d, d ∈ dicts1 ∧ d !! "name" = Some n) ↔
        (∃ d, d ∈ dicts2 ∧ d !! "name" = Some n)) →
  ∃ names,
    cl_rendered (client_lists (snd (ClientListHandler_get self1 s1)) self1)
      = cl_rendered (client_lists s1 self1) ++ [("data/clients.html", names)] ∧
    cl_rendered (client_lists (snd (ClientListHandler_get self2 s2)) self2)
      = cl_rendered (client_lists s2 self2) ++ [("data/clients.html", names)].
Proof.
  intros dicts1 dicts2 Hall1 Hall2 Hsame.
  destruct (names_of_is_Some (cl_apps (client_lists s1 self1))) as [na1 Hna1].
  { intros d Hd. apply Hall1, elem_of_app. by left. }
  destruct (names_of_is_Some (cl_statics (client_lists s1 self1))) as [ns1 Hns1].
  { intros d Hd. apply Hall1, elem_of_app. by right. }
  destruct (names_of_is_Some (cl_apps (client_lists s2 self2))) as [na2 Hna2].
  { intros d Hd. apply Hall2, elem_of_app. by left. }
  destruct (names_of_is_Some (cl_statics (client_lists s2 self2))) as [ns2 Hns2].
  { intros d Hd. apply Hall2, elem_of_app. by right. }
  rewrite !ClientListHandler_get_eq. cbv zeta. rewrite Hna1, Hns1, Hna2, Hns2.
  simpl. rewrite !fn_lookup_alter. simpl.
  eexists. split; [reflexivity|]. do 3 f_equal.
  apply StronglySorted_unique with (R := String.le); try apply _.
  - apply (rendered_names_spec _ _ _ _ Hna2 Hns2).
  - apply (rendered_names_spec _ _ _ _ Hna1 Hns1).
  - apply NoDup_Permutation.
    + apply (rendered_names_spec _ _ _ _ Hna2 Hns2).
    + apply (rendered_names_spec _ _ _ _ Hna1 Hns1).
    + intros n.
      destruct (rendered_names_spec _ _ _ _ Hna1 Hns1) as (_ & _ & H1).
      destruct (rendered_names_spec _ _ _ _ Hna2 Hns2) as (_ & _ & H2).
      cbv zeta in H1, H2. rewrite H1, H2. fold dicts1 dicts2.
      by rewrite Hsame.
Qed.

(** X15: whatever its outcome, [get] touches nothing of the gateway but
    its own response: the registry, the connections, the core, the
    dispatcher trace and the log are unchanged, and so is every other HTTP
    response; its apps and statics stay as they are, and so does every
    other client list. *)
Theorem client_list_get_touches_only_its_own_response (self : oid) (s : site E) :
  let res := ClientListHandler_get self s in
  clients (process (snd res)) = clients (process s) ∧
  websockets (process (snd res)) = websockets (process s) ∧
  core_state (process (snd res)) = core_state (process s) ∧
  dispatched (process (snd res)) = dispatched (process s) ∧
  log (process (snd res)) = log (process s) ∧
  (∀ c, c ≠ self → requests (process (snd res)) c = requests (process s) c) ∧
  cl_apps (client_lists (snd res) self) = cl_apps (client_lists s self) ∧
  cl_statics (client_lists (snd res) self) = cl_statics (client_lists s self) ∧
  (∀ c, c ≠ self → client_lists (snd res) c = client_lists s c).
Proof.
  cbv zeta. rewrite ClientListHandler_get_eq. cbv zeta.
  destruct (names_of (cl_apps (client_lists s self))) as [na|];
    [destruct (names_of (cl_statics (client_lists s self))) as [ns|]|];
    simpl; rewrite ?fn_lookup_alter; repeat split; try done;
    intros c Hc; by rewrite ?fn_lookup_alter_ne.
Qed.

(** The routes of the factory, by handler class. *)
Lemma factory_routes (data_path : string) (apps statics : list dict) {Config} (config : Config) (core : actor) (r : route) :
  r ∈ make_mopidy_app_factory data_path apps statics config core →
  r = ("/ws/?", cls_WebSocketHandler, {[ "core" := kw_actor core ]}) ∨
  r = ("/rpc", cls_JsonRpcHandler, {[ "core" := kw_actor core ]}) ∨
  r = ("/(.+)", cls_StaticFileHandler, {[ "path" := kw_str data_path ]}) ∨
  r = ("/", cls_ClientListHandler,
       <[ "apps" := kw_dicts apps ]> {[ "statics" := kw_dicts statics ]}).
Proof.
  unfold make_mopidy_app_factory.
  intros [->|[->|[->|[->|[]%elem_of_nil]%elem_of_cons]%elem_of_cons]%elem_of_cons]%elem_of_cons;
    auto.
Qed.

Lemma instantiate_websocket pattern core self (s : site E) :
  instantiate (pattern, cls_WebSocketHandler, {[ "core" := kw_actor core ]}) self s
  = in_process (WebSocketHandler_initialize self core) s.
Proof.
  unfold instantiate. rewrite decide_True by apply dom_singleton_L.
  by rewrite lookup_singleton_eq.
Qed.

Lemma instantiate_jsonrpc pattern core self (s : site E) :
  instantiate (pattern, cls_JsonRpcHandler, {[ "core" := kw_actor core ]}) self s
  = in_process (JsonRpcHandler_initialize self core) s.
Proof.
  unfold instantiate. rewrite decide_True by apply dom_singleton_L.
  by rewrite lookup_singleton_eq.
Qed.

Lemma instantiate_static pattern path self (s : site E) :
  instantiate (pattern, cls_StaticFileHandler, {[ "path" := kw_str path ]}) self s
  = (py.Return tt, s).
Proof.
  unfold instantiate. rewrite decide_True; [done|].
  rewrite dom_singleton_L. split.
  - by apply elem_of_singleton.
  - apply union_subseteq_l.
Qed.

Lemma instantiate_client_list pattern apps statics self (s : site E) :
  instantiate (pattern, cls_ClientListHandler,
               <[ "apps" := kw_dicts apps ]> {[ "statics" := kw_dicts statics ]})
              self s
  = ClientListHandler_initialize self apps statics s.
Proof.
  unfold instantiate. rewrite decide_True.
  - rewrite lookup_insert_eq, lookup_insert_ne by done.
    by rewrite lookup_singleton_eq.
  - by rewrite dom_insert_L, dom_singleton_L.
Qed.

(** X16: every route of the factory can be instantiated: its keyword
    arguments are the parameters of its handler's [initialize], so
    creating the handler for a request does not fail. *)
Theorem every_route_instantiates (data_path : string) (apps statics : list dict) {Config} (config : Config) (core : actor) (r : route) (self : oid) (s : site E) :
  r ∈ make_mopidy_app_factory data_path apps statics config core →
  fst (instantiate r self s) = py.Return tt.
Proof.
  intros [->|[->|[->| ->]]]%factory_routes.
  - by rewrite instantiate_websocket.
  - by rewrite instantiate_jsonrpc.
  - by rewrite instantiate_static.
  - by rewrite instantiate_client_list.
Qed.

(** X17: the two transports of one application dispatch through the same
    table: a WebSocket handler and a JSON-RPC handler created from routes
    of the factory both hold the wrapper of the core the factory was
    called with, and keep it whatever callbacks run afterwards, so a
    method name resolves alike on both. *)
Theorem both_transports_share_one_dispatch_table (data_path : string) (apps statics : list dict) {Config} (config : Config) (core : actor) (p1 p2 : string) (kw1 kw2 : gmap string kwarg) (ws rpc : oid) (s : site E) (evs : list event) :
  (p1, cls_WebSocketHandler, kw1) ∈ make_mopidy_app_factory data_path apps statics config core →
  (p2, cls_JsonRpcHandler, kw2) ∈ make_mopidy_app_factory data_path apps statics config core →
  let s1 := snd (instantiate (p1, cls_WebSocketHandler, kw1) ws s) in
  let s2 := snd (instantiate (p2, cls_JsonRpcHandler, kw2) rpc s1) in
  let w := run evs (process s2) in
  ws_jsonrpc (websockets w ws) = make_jsonrpc_wrapper core ∧
  rh_jsonrpc (requests w rpc) = make_jsonrpc_wrapper core ∧
  (∀ name, objects (ws_jsonrpc (websockets w ws)) !! name
           = objects (rh_jsonrpc (requests w rpc)) !! name).
Proof.
  intros H1 H2.
  apply factory_routes in H1 as [H1|[H1|[H1|H1]]]; try discriminate H1.
  apply factory_routes in H2 as [H2|[H2|[H2|H2]]]; try discriminate H2.
  injection H1 as -> ->. injection H2 as -> ->.
  cbv zeta. rewrite instantiate_websocket.
  rewrite instantiate_jsonrpc.
  assert (ws_jsonrpc (websockets (run evs (process (snd (in_process
            (JsonRpcHandler_initialize rpc core)
            (snd (in_process (WebSocketHandler_initialize ws core) s)))))) ws)
          = make_jsonrpc_wrapper core) as Hws.
  { rewrite (keeps_run (λ w, ws_jsonrpc (websockets w ws)));
      [|apply stable_ws_jsonrpc|done].
    simpl. by rewrite fn_lookup_alter. }
  assert (rh_jsonrpc (requests (run evs (process (snd (in_process
            (JsonRpcHandler_initialize rpc core)
            (snd (in_process (WebSocketHandler_initialize ws core) s)))))) rpc)
          = make_jsonrpc_wrapper core) as Hrpc.
  { rewrite (keeps_run (λ w, rh_jsonrpc (requests w rpc)));
      [|apply stable_rh_jsonrpc|done].
    simpl. by rewrite fn_lookup_alter. }
  split; [exact Hws|]. split; [exact Hrpc|].
  intros name. by rewrite Hws, Hrpc.
Qed.

(** X18: the client list served at [/] is the one of the apps and statics
    the factory was made with: the handler created from the factory's
    route for [ClientListHandler] renders, on [get], their names in
    ascending order, each once, without [mopidy]. *)
Theorem root_route_lists_the_registered_clients (data_path : string) (apps statics : list dict) {Config} (config : Config) (core : actor) (p : string) (kw : gmap string kwarg) (self : oid) (s : site E) :
  (p, cls_ClientListHandler, kw) ∈ make_mopidy_app_factory data_path apps statics config core →
  (∀ d, d ∈ apps ++ statics → is_Some (d !! "name")) →
  let s1 := snd (instantiate (p, cls_ClientListHandler, kw) self s) in
  ∃ names,
    fst (ClientListHandler_get self s1) = py.Return tt ∧
    cl_rendered (client_lists (snd (ClientListHandler_get self s1)) self)
      = cl_rendered (client_lists s self) ++ [("data/clients.html", names)] ∧
    StronglySorted String.le names ∧
    NoDup names ∧
    (∀ n, n ∈ names ↔
          n ≠ "mopidy" ∧ ∃ d, d ∈ apps ++ statics ∧ d !! "name" = Some n).
Proof.
  intros Hr Hall.
  apply factory_routes in Hr as [Hr|[Hr|[Hr|Hr]]]; try discriminate Hr.
  injection Hr as -> ->. cbv zeta. rewrite instantiate_client_list.
  destruct (names_of_is_Some apps) as [na Hna].
  { intros d Hd. apply Hall, elem_of_app. by left. }
  destruct (names_of_is_Some statics) as [ns Hns].
  { intros d Hd. apply Hall, elem_of_app. by right. }
  rewrite ClientListHandler_get_eq. cbv zeta. simpl.
  rewrite !fn_lookup_alter. simpl. rewrite Hna, Hns.
  eexists. split; [reflexivity|]. split.
  { simpl. rewrite !fn_lookup_alter. reflexivity. }
  by apply rendered_names_spec.
Qed.

End site_claims.

(** ** These theorems at work on the concrete process and site *)

Lemma on_message_writes_response_to_sender_demo :
  let res := WebSocketHandler_on_message 1 "call" demo.start in
  fst res = py.Return tt ∧
  websockets (snd res) 1 = with_written "result" (websockets demo.start 1) ∧
  (∀ c, c ≠ 1 → websockets (snd res) c = websockets demo.start c) ∧
  clients (snd res) = clients demo.start ∧
  core_state (snd res) = 1.
Proof.
  apply (on_message_writes_response_to_sender 1 "call" "result" demo.start 1);
    reflexivity.
Defined.

Lemma on_message_without_response_writes_nothing_demo :
  let res := WebSocketHandler_on_message 1 "notify" demo.start in
  fst res = py.Return tt ∧
  (∀ c, websockets (snd res) c = websockets demo.start c) ∧
  core_state (snd res) = 1 ∧
  log (snd res) =
    [{| lvl := DEBUG; fmt := "Received WebSocket message from %s: %r";
        args := [arg_str "192.0.2.1"; arg_str "notify"] |}].
Proof.
  apply (on_message_without_response_writes_nothing 1 "notify" demo.start None 1);
    [reflexivity | reflexivity | exact I].
Defined.

Lemma payload_is_dispatched_exactly_once_demo :
  (dispatched (snd (WebSocketHandler_on_message 0 "call" demo.start)) = ["call"] ∧
   core_state (snd (WebSocketHandler_on_message 0 "call" demo.start)) = 1) ∧
  (dispatched (snd (JsonRpcHandler_post 1 demo.start)) = ["crash"] ∧
   core_state (snd (JsonRpcHandler_post 1 demo.start)) = 1).
Proof.
  split.
  - apply (payload_is_dispatched_exactly_once 0 "call" demo.start). reflexivity.
  - apply (payload_is_dispatched_exactly_once 1 "call" demo.start). reflexivity.
Defined.

Lemma post_writes_the_response_once_demo :
  let res := JsonRpcHandler_post 5 demo.start in
  fst res = py.Return tt ∧
  rh_written (requests (snd res) 5) = ["result"] ∧
  rh_errors (requests (snd res) 5) = [] ∧
  rh_finished (requests (snd res) 5) = false ∧
  (∀ c, c ≠ 5 → requests (snd res) c = requests demo.start c) ∧
  log (snd res) =
    [{| lvl := DEBUG; fmt := "Received RPC message from %s: %r";
        args := [arg_str "192.0.2.9"; arg_str "call"] |}].
Proof.
  apply (post_writes_the_response_once 5 demo.start (Some "result") 1);
    reflexivity.
Defined.

Lemma post_passes_base_exceptions_demo :
  let e := py.Exc py.BaseException "KeyboardInterrupt" in
  let res := JsonRpcHandler_post 0 site_demo.start_interrupted in
  fst res = py.Raise e ∧
  rh_errors (requests (snd res) 0) = [] ∧
  rh_written (requests (snd res) 0) = [] ∧
  log (snd res) =
    [{| lvl := DEBUG; fmt := "Received RPC message from %s: %r";
        args := [arg_str "192.0.2.9"; arg_str "call"] |}].
Proof.
  intros e.
  apply (post_passes_base_exceptions 0 site_demo.start_interrupted e);
    reflexivity.
Defined.

Lemma on_message_lets_base_exceptions_through_demo :
  let e := py.Exc py.BaseException "KeyboardInterrupt" in
  let res := WebSocketHandler_on_message 0 "call" site_demo.start_interrupted in
  fst res = py.Raise e ∧
  (∀ c, websockets (snd res) c = websockets site_demo.start_interrupted c) ∧
  log (snd res) =
    [{| lvl := DEBUG; fmt := "Received WebSocket message from %s: %r";
        args := [arg_str "192.0.2.1"; arg_str "call"] |}].
Proof.
  intros e.
  apply (on_message_lets_base_exceptions_through 0 "call"
           site_demo.start_interrupted e); reflexivity.
Defined.

Lemma callbacks_touch_only_their_own_handler_demo :
  websockets (snd (WebSocketHandler_on_message 1 "crash" demo.start)) 2
    = websockets demo.start 2 ∧
  (∀ d, requests (snd (WebSocketHandler_on_message 1 "crash" demo.start)) d
        = requests demo.start d) ∧
  requests (snd (JsonRpcHandler_post 1 demo.start)) 2 = requests demo.start 2 ∧
  (∀ d, websockets (snd (JsonRpcHandler_post 1 demo.start)) d
        = websockets demo.start d).
Proof.
  apply (callbacks_touch_only_their_own_handler 1 2 "crash" demo.start).
  discriminate.
Defined.

Lemma registry_returns_to_start_demo :
  let evs := [ev_open 1; ev_on_message 1 "call"; ev_broadcast "event";
              ev_on_close 1] in
  clients (run evs demo.start) = clients demo.start.
Proof.
  intros evs. apply (registry_returns_to_start evs demo.start).
  - intros c. subst evs. simpl. repeat case_decide; discriminate.
  - intros c _. apply not_elem_of_empty.
Defined.

Lemma static_files_get_only_the_mopidy_headers_demo :
  let w := snd (JsonRpcHandler_head 7 demo.start) in
  let res := StaticFileHandler_set_extra_headers 7 "index.html" w in
  fst res = py.Return tt ∧
  carries_mopidy_headers (E := demo.env) (requests (snd res) 7) ∧
  rh_headers (requests (snd res) 7) !! "Content-Type"
    = rh_headers (requests w 7) !! "Content-Type" ∧
  rh_written (requests (snd res) 7) = rh_written (requests w 7) ∧
  rh_finished (requests (snd res) 7) = rh_finished (requests w 7).
Proof.
  intros w.
  apply (static_files_get_only_the_mopidy_headers 7 "index.html" "Content-Type" w);
    discriminate.
Defined.

Lemma broadcast_reaches_registered_connections_only_demo :
  let res := WebSocketHandler_broadcast "event" demo.three_clients in
  websockets (snd res) 5 = websockets demo.three_clients 5 ∧
  clients (snd res) = clients demo.three_clients ∧
  requests (snd res) = requests demo.three_clients ∧
  core_state (snd res) = core_state demo.three_clients ∧
  dispatched (snd res) = dispatched demo.three_clients ∧
  log (snd res) = log demo.three_clients ∧
  (∀ d, ws_close_calls (websockets (snd res) d)
        = ws_close_calls (websockets demo.three_clients d)).
Proof.
  apply (broadcast_reaches_registered_connections_only "event" demo.three_clients 5).
  intros Hc.
  pose proof (proj2 (elem_of_elements (clients demo.three_clients) 5) Hc) as Hin.
  assert (elements (clients demo.three_clients) = [2; 3; 1]) as Hel by reflexivity.
  rewrite Hel in Hin.
  repeat (apply elem_of_cons in Hin as [Hin|Hin]; [discriminate|]).
  by apply elem_of_nil in Hin.
Defined.

Lemma closed_connection_gets_no_broadcast_demo :
  let evs := [ev_open 1; ev_open 2; ev_on_close 1] in
  websockets (snd (WebSocketHandler_broadcast "event" (run evs demo.start))) 1
  = websockets (run evs demo.start) 1.
Proof.
  intros evs.
  apply (closed_connection_gets_no_broadcast evs "event" demo.start 1).
  reflexivity.
Defined.

Lemma site_demo_names (ds : list dict) (ns : list string) :
  names_of ds = Some ns → ∀ d, d ∈ ds → is_Some (d !! "name").
Proof.
  unfold names_of. intros Hns d Hd.
  assert (is_Some (mapM (λ d : dict, d !! "name") ds)) as Hall by (by rewrite Hns).
  apply mapM_is_Some in Hall.
  by apply (proj1 (Forall_forall _ _) Hall d Hd).
Qed.

Lemma client_list_renders_sorted_names_demo :
  ∃ names,
    fst (ClientListHandler_get 0 site_demo.start) = py.Return tt ∧
    cl_rendered (client_lists (snd (ClientListHandler_get 0 site_demo.start)) 0)
      = [("data/clients.html", names)] ∧
    StronglySorted String.le names ∧
    NoDup names ∧
    (∀ n, n ∈ names ↔
          n ≠ "mopidy" ∧
          ∃ d, d ∈ site_demo.apps ++ site_demo.statics ∧ d !! "name" = Some n).
Proof.
  apply (client_list_renders_sorted_names 0 site_demo.start).
  apply (site_demo_names _ ["musicbox"; "mopidy"; "apollo"; "moped"; "apollo"]).
  reflexivity.
Defined.

Lemma client_list_fails_on_a_missing_name_demo :
  let res := ClientListHandler_get 1 site_demo.start in
  fst res = py.Raise (KeyError "name") ∧
  cl_rendered (client_lists (snd res) 1) = [] ∧
  rh_written (requests (process (snd res)) 1) = [] ∧
  rh_finished (requests (process (snd res)) 1) = false.
Proof.
  apply (client_list_fails_on_a_missing_name 1 site_demo.start
           {[ "path" := "/srv/www" ]}).
  - simpl. unfold site_demo.apps, site_demo.broken_statics.
    do 4 apply list_elem_of_further. apply list_elem_of_here.
  - reflexivity.
Defined.

Lemma client_list_depends_on_the_names_only_demo :
  ∃ names,
    cl_rendered (client_lists (snd (ClientListHandler_get 0 site_demo.start)) 0)
      = [("data/clients.html", names)] ∧
    cl_rendered (client_lists (snd (ClientListHandler_get 2 site_demo.start)) 2)
      = [("data/clients.html", names)].
Proof.
  apply (client_list_depends_on_the_names_only 0 2 site_demo.start site_demo.start).
  - apply (site_demo_names _ ["musicbox"; "mopidy"; "apollo"; "moped"; "apollo"]).
    reflexivity.
  - apply (site_demo_names _ ["apollo"; "moped"; "apollo"; "mopidy"; "musicbox"]).
    reflexivity.
  - intros n.
    rewrite <- (names_of_elem_of _ ["musicbox"; "mopidy"; "apollo"; "moped"; "apollo"] n)
      by reflexivity.
    rewrite <- (names_of_elem_of _ ["apollo"; "moped"; "apollo"; "mopidy"; "musicbox"] n)
      by reflexivity.
    rewrite !elem_of_cons, !elem_of_nil. tauto.
Defined.

Lemma every_route_instantiates_demo :
  fst (instantiate ("/ws/?", cls_WebSocketHandler, {[ "core" := kw_actor 7 ]})
                   4 site_demo.start) = py.Return tt.
Proof.
  apply (every_route_instantiates "/usr/share/mopidy/http/data"
           site_demo.apps site_demo.statics tt 7).
  apply list_elem_of_here.
Defined.

Lemma both_transports_share_one_dispatch_table_demo :
  let s1 := snd (instantiate ("/ws/?", cls_WebSocketHandler,
                              {[ "core" := kw_actor 7 ]}) 4 site_demo.start) in
  let s2 := snd (instantiate ("/rpc", cls_JsonRpcHandler,
                              {[ "core" := kw_actor 7 ]}) 5 s1) in
  let w := run [ev_open 4; ev_on_message 4 "call"; ev_post 5] (process s2) in
  ws_jsonrpc (websockets w 4) = make_jsonrpc_wrapper 7 ∧
  rh_jsonrpc (requests w 5) = make_jsonrpc_wrapper 7 ∧
  (∀ name, objects (ws_jsonrpc (websockets w 4)) !! name
           = objects (rh_jsonrpc (requests w 5)) !! name).
Proof.
  apply (both_transports_share_one_dispatch_table "/usr/share/mopidy/http/data"
           site_demo.apps site_demo.statics tt 7).
  - apply list_elem_of_here.
  - apply list_elem_of_further, list_elem_of_here.
Defined.

Lemma root_route_lists_the_registered_clients_demo :
  let s1 := snd (instantiate
                   ("/", cls_ClientListHandler,
                    <[ "apps" := kw_dicts site_demo.apps ]>
                      {[ "statics" := kw_dicts site_demo.statics ]})
                   9 site_demo.start) in
  ∃ names,
    fst (ClientListHandler_get 9 s1) = py.Return tt ∧
    cl_rendered (client_lists (snd (ClientListHandler_get 9 s1)) 9)
      = [("data/clients.html", names)] ∧
    StronglySorted String.le names ∧
    NoDup names ∧
    (∀ n, n ∈ names ↔
          n ≠ "mopidy" ∧
          ∃ d, d ∈ site_demo.apps ++ site_demo.statics ∧ d !! "name" = Some n).
Proof.
  apply (root_route_lists_the_registered_clients "/usr/share/mopidy/http/data"
           site_demo.apps site_demo.statics tt 7).
  - do 3 apply list_elem_of_further. apply list_elem_of_here.
  - apply (site_demo_names _ ["musicbox"; "mopidy"; "apollo"; "moped"; "apollo"]).
    reflexivity.
Defined.

(** The list the demo site renders, spelled out. *)
Example client_list_demo_rendering :
  cl_rendered (client_lists (snd (ClientListHandler_get 0 site_demo.start)) 0)
  = [("data/clients.html", ["apollo"; "moped"; "musicbox"])].
Proof. reflexivity. Qed.
